(** * The Cartesia address-finder tools (cartesia-agent/tools.py)

    A shallow embedding of the session engine: the intent classifier, the
    dual-strategy search, selection by identifier and by ordinal, and the
    auxiliary state operations, with the properties of the specification
    stated and settled against it.

    Conventions of the embedding.
    - A Python [str] is a [string] whose characters are code points below
      256 (Latin-1); the character classes below are Python's on that range.
    - [_session_state] has a fixed set of keys and is a record.
    - A reply of the Convex backend is decoded JSON.  Replies and
      suggestions are typed as the interface of the backend types them: a
      key may be absent, a present key holds a value of its declared type.
      A suggestion dict is a record of the keys the tools read or write.
    - A tool is a function of the backend and of the world (session state
      and trace of requests) to an outcome and a world.  [exn] stands for
      Python's [Exception]; the backend decides which requests raise.
    - [@loopback_tool], of the Line SDK, rebinds the name of each tool to
      a tool descriptor.  The SDK runs a tool through its descriptor; a
      call of that name from inside the module is a call of the
      descriptor, which is not callable.
    - [json.dumps] is not expanded: an operation returns the document it
      serialises, and a notification carries the document it serialises.
    - [print] only writes to the console and is left out. *)

From Stdlib Require Import List String Ascii Bool Arith ZArith QArith Lia.
From Stdlib Require Import DecimalString.
Import ListNotations.
Close Scope Q_scope.
Open Scope string_scope.
Open Scope list_scope.
Open Scope nat_scope.

(** ** Python strings *)

Module PyStr.

Definition code (c : ascii) : nat := nat_of_ascii c.

Definition between (lo hi n : nat) : bool := (lo <=? n) && (n <=? hi).

(** [str.isspace] on one character: the characters [str.strip] and
    [str.split] treat as whitespace. *)
Definition isspace (c : ascii) : bool :=
  let n := code c in
  between 9 13 n || between 28 32 n || (n =? 133) || (n =? 160).

(** The regular-expression class [\d] (decimal digits). *)
Definition re_digit (c : ascii) : bool := between 48 57 (code c).

(** [str.isdigit] on one character: the decimal digits and the
    superscript digits of Latin-1. *)
Definition isdigit (c : ascii) : bool :=
  let n := code c in
  between 48 57 n || (n =? 178) || (n =? 179) || (n =? 185).

Definition lower_char (c : ascii) : ascii :=
  let n := code c in
  if between 65 90 n || between 192 214 n || between 216 222 n
  then ascii_of_nat (n + 32) else c.

(** [s.lower()] *)
Fixpoint lower (s : string) : string :=
  match s with
  | EmptyString => EmptyString
  | String c s' => String (lower_char c) (lower s')
  end.

Fixpoint lstrip (s : string) : string :=
  match s with
  | EmptyString => EmptyString
  | String c s' => if isspace c then lstrip s' else s
  end.

Fixpoint rstrip (s : string) : string :=
  match s with
  | EmptyString => EmptyString
  | String c s' =>
      match rstrip s' with
      | EmptyString => if isspace c then EmptyString else String c EmptyString
      | r => String c r
      end
  end.

(** [s.strip()] *)
Definition strip (s : string) : string := rstrip (lstrip s).

Definition starts_word (s : string) : bool :=
  match s with
  | EmptyString => false
  | String c _ => negb (isspace c)
  end.

Definition cons_head (c : ascii) (ws : list string) : list string :=
  match ws with
  | [] => [String c EmptyString]
  | w :: r => String c w :: r
  end.

(** [s.split()]: the maximal runs of characters that are not whitespace. *)
Fixpoint split (s : string) : list string :=
  match s with
  | EmptyString => []
  | String c s' =>
      if isspace c then split s'
      else if starts_word s' then cons_head c (split s')
      else String c EmptyString :: split s'
  end.

(** [any(p(c) for c in s)] *)
Fixpoint any (p : ascii -> bool) (s : string) : bool :=
  match s with
  | EmptyString => false
  | String c s' => p c || any p s'
  end.

(** [x in xs] for a string and a list or tuple of strings. *)
Definition mem (x : string) (xs : list string) : bool :=
  existsb (String.eqb x) xs.

(** [str(n)] for a length. *)
Definition str_of_nat (n : nat) : string :=
  NilZero.string_of_uint (Nat.to_uint n).

End PyStr.

(** ** The intent classifier *)

Definition street_keywords : list string :=
  [ "street"; "st"; "road"; "rd"; "avenue"; "ave"; "drive"; "dr";
    "lane"; "ln"; "court"; "ct"; "crescent"; "cres"; "place"; "pl";
    "way"; "parade"; "pde"; "boulevard"; "blvd"; "highway"; "hwy";
    "terrace"; "tce" ].

(** [words and re.match(r"^\d", words[0])] *)
Definition first_word_starts_with_digit (words : list string) : bool :=
  match words with
  | String c _ :: _ => PyStr.re_digit c
  | _ => false
  end.

Definition _classify_intent (query : string) : string :=
  let q := PyStr.lower (PyStr.strip query) in
  let words := PyStr.split q in
  if first_word_starts_with_digit words then "address"
  else if existsb (fun word => PyStr.mem word street_keywords) words then "street"
  else if (List.length words =? 1) && (3 <=? String.length q) then "suburb"
  else if (List.length words =? 2) && negb (PyStr.any PyStr.isdigit q) then "suburb"
  else "general".

(** ** JSON documents, suggestions and backend replies *)

#[warnings="-register-all"]
Inductive json : Type :=
| JNull
| JBool (b : bool)
| JNum (q : Q)
| JStr (s : string)
| JList (l : list json)
| JDict (d : list (string * json)).

Definition jnat (n : nat) : json := JNum (inject_Z (Z.of_nat n)).

(** A suggestion dict, by the keys the tools read or write.  [None] is an
    absent key. *)
Record Suggestion : Type := mkSuggestion {
  sg_placeId : option string;
  sg_description : option string;
  sg_resultType : option string;
  sg_suburb : option string;
  sg_confidence : option Q;
  sg_types : option (list string);
  sg_structuredFormatting : option json;
  sg_postcode : option string;
  sg_lat : option Q;
  sg_lng : option Q
}.

(** The [details] dict of a place-details reply. *)
Record Details : Type := mkDetails {
  dt_formattedAddress : option string;
  dt_suburb : option string;
  dt_postcode : option string;
  dt_lat : option Q;
  dt_lng : option Q;
  dt_types : option (list string)
}.

Record SuggestionsReply : Type := mkSuggestionsReply {
  sr_success : option bool;
  sr_suggestions : option (list Suggestion);
  sr_detectedIntent : option string;
  sr_error : option string
}.

Record DetailsReply : Type := mkDetailsReply {
  dr_success : option bool;
  dr_details : option Details
}.

(** The body of an HTTP reply: the reply itself, or the reply under the
    key ["value"]. *)
Inductive Body (R : Type) : Type :=
| Bare (r : R)
| Wrapped (r : R).
Arguments Bare {R} r.
Arguments Wrapped {R} r.

(** [{}] read as a reply. *)
Definition empty_reply : SuggestionsReply := mkSuggestionsReply None None None None.

(** [d.get(key, default)] *)
Definition get {A : Type} (field : option A) (default : A) : A :=
  match field with
  | Some v => v
  | None => default
  end.

(** [result.get("value", result)] *)
Definition value_of {R : Type} (result : Body R) : R :=
  match result with
  | Bare r => r
  | Wrapped r => r
  end.

(** [(result or {}).get("value", result or {})] *)
Definition value_or_empty (result : option (Body SuggestionsReply)) : SuggestionsReply :=
  match result with
  | Some body => value_of body
  | None => empty_reply
  end.

(** Truth value of [value.get("success")]. *)
Definition truthy (flag : option bool) : bool :=
  match flag with
  | Some true => true
  | _ => false
  end.

(** Truth value of a details dict: a dict with no key is false. *)
Definition details_nonempty (d : Details) : bool :=
  match d with
  | mkDetails None None None None None None => false
  | _ => true
  end.

Definition jstr_or_null (field : option string) : json :=
  match field with
  | Some s => JStr s
  | None => JNull
  end.

Definition _format_suggestion (s : Suggestion) : json :=
  JDict
    [ ("placeId", JStr (get (sg_placeId s) ""));
      ("description", JStr (get (sg_description s) ""));
      ("resultType", JStr (get (sg_resultType s) "general"));
      ("suburb", jstr_or_null (sg_suburb s));
      ("confidence", JNum (get (sg_confidence s) (inject_Z 0)));
      ("types", JList (map JStr (get (sg_types s) [])));
      ("structuredFormatting", get (sg_structuredFormatting s) JNull) ].

(** ** Session state, the trace of backend calls and the tool monad *)

Record SessionState : Type := mkSessionState {
  last_query : option string;
  last_suggestions : list Suggestion;
  current_selection : option Suggestion;
  selection_acknowledged : bool;
  session_id : string
}.

(** An exception, by its message [str(e)]. *)
Inductive exn : Type := Exn (msg : string).

Definition str (e : exn) : string := match e with Exn msg => msg end.

(** One HTTP request to Convex, with the session state at the moment the
    request is made. *)
Inductive Event : Type :=
| EvAction (path : string) (args : json) (at_state : SessionState)
| EvMutation (path : string) (args : json) (at_state : SessionState).

(** The remote side.  A reply may depend on the requests made so far and
    on the arguments; [inl] is a raised exception (network error, timeout,
    non-2xx status). *)
Record Backend : Type := mkBackend {
  getPlaceSuggestions : list Event -> json -> exn + Body SuggestionsReply;
  getPlaceDetails : list Event -> json -> exn + Body DetailsReply;
  pushUpdate : list Event -> json -> option exn
}.

Record World : Type := mkWorld {
  session : SessionState;
  trace : list Event
}.

Definition M (A : Type) : Type := Backend -> World -> (exn + A) * World.

Definition ret {A : Type} (a : A) : M A := fun _ w => (inr a, w).

Definition bind {A B : Type} (m : M A) (k : A -> M B) : M B :=
  fun be w =>
    match m be w with
    | (inr a, w') => k a be w'
    | (inl e, w') => (inl e, w')
    end.

Declare Scope tool_scope.
Delimit Scope tool_scope with tool.
Notation "x <- m ;; k" := (bind m (fun x => k))
  (at level 61, m at next level, right associativity) : tool_scope.
Notation "m ;; k" := (bind m (fun _ => k))
  (at level 61, right associativity) : tool_scope.
Open Scope tool_scope.

(** [try: m  except Exception as e: handler(e)] *)
Definition try_except {A : Type} (m : M A) (handler : exn -> M A) : M A :=
  fun be w =>
    match m be w with
    | (inl e, w') => handler e be w'
    | r => r
    end.

(** The outcome of [m], an exception being handed over as a value. *)
Definition attempt {A : Type} (m : M A) : M (exn + A) :=
  try_except (a <- m ;; ret (inr a)) (fun e => ret (inl e)).

Definition read_state : M SessionState := fun _ w => (inr (session w), w).

Definition write_state (f : SessionState -> SessionState) : M unit :=
  fun _ w => (inr tt, mkWorld (f (session w)) (trace w)).

Definition set_last_query (v : option string) (s : SessionState) : SessionState :=
  mkSessionState v (last_suggestions s) (current_selection s)
    (selection_acknowledged s) (session_id s).
Definition set_last_suggestions (v : list Suggestion) (s : SessionState) : SessionState :=
  mkSessionState (last_query s) v (current_selection s)
    (selection_acknowledged s) (session_id s).
Definition set_current_selection (v : option Suggestion) (s : SessionState) : SessionState :=
  mkSessionState (last_query s) (last_suggestions s) v
    (selection_acknowledged s) (session_id s).
Definition set_selection_acknowledged_field (v : bool) (s : SessionState) : SessionState :=
  mkSessionState (last_query s) (last_suggestions s) (current_selection s)
    v (session_id s).

Definition _reset_state : M unit :=
  write_state (set_last_query None) ;;
  write_state (set_last_suggestions []) ;;
  write_state (set_current_selection None) ;;
  write_state (set_selection_acknowledged_field false).

Definition getPlaceSuggestions_path : string :=
  "address/getPlaceSuggestions:getPlaceSuggestions".
Definition getPlaceDetails_path : string :=
  "address/getPlaceDetails:getPlaceDetails".
Definition pushUpdate_path : string :=
  "cartesia/sessionState:pushUpdate".

(** [_call_convex_action(path, args)], for the remote function [remote]
    that [path] names. *)
Definition _call_convex_action {R : Type}
    (remote : Backend -> list Event -> json -> exn + Body R)
    (path : string) (args : json) : M (Body R) :=
  fun be w =>
    (remote be (trace w) args,
     mkWorld (session w) (trace w ++ [EvAction path args (session w)])).

Definition _call_convex_mutation (path : string) (args : json) : M unit :=
  fun be w =>
    (match pushUpdate be (trace w) args with
     | Some e => inl e
     | None => inr tt
     end,
     mkWorld (session w) (trace w ++ [EvMutation path args (session w)])).

(** The arguments of [pushUpdate]. *)
Definition push_args (session_id update_type : string) (data : json) : json :=
  JDict [ ("sessionId", JStr session_id);
          ("updateType", JStr update_type);
          ("data", data) ].

Definition _push_state_update (update_type : string) (data : json) : M unit :=
  st <- read_state ;;
  try_except
    (_call_convex_mutation pushUpdate_path
       (push_args (session_id st) update_type data))
    (fun _ => ret tt).

(** ** The tools *)

(** The texts of the replies are constants of the source; they are kept
    byte for byte. *)

Definition suggestions_data (query intent : string) (suggestions : list Suggestion) : json :=
  JDict
    [ ("query", JStr query);
      ("intent", JStr intent);
      ("suggestions", JList (map _format_suggestion suggestions)) ].

Definition validated_reply : json :=
  JDict
    [ ("status", JStr "validated");
      ("count", jnat 1);
      ("message", JStr "Found it — it's on screen.");
      ("note", JStr "IMPORTANT: Do NOT read the address aloud. The user can see it on screen. Just say something brief like 'Found it' or 'That's on screen now'.") ].

Definition loose_suggestions_reply (count : nat) : json :=
  JDict
    [ ("status", JStr "suggestions_available");
      ("count", jnat count);
      ("message", JStr "Some options are on screen.");
      ("note", JStr "IMPORTANT: Do NOT read addresses aloud or state the count. Just say 'some options are on screen' or similar.") ].

Definition validation_failed_reply : json :=
  JDict
    [ ("status", JStr "validation_failed");
      ("error", JStr "The provided address could not be validated.") ].

Definition error_reply (message : string) : json :=
  JDict [ ("status", JStr "error"); ("error", JStr message) ].

Definition no_results_reply (query : string) : json :=
  JDict
    [ ("status", JStr "no_results");
      ("message", JStr ("No results for '" ++ query ++ "'. Could you try a different search?")) ].

Definition suggestions_reply (count : nat) : json :=
  JDict
    [ ("status", JStr "suggestions_available");
      ("count", jnat count);
      ("message", JStr "Options are on screen.");
      ("note", JStr "IMPORTANT: Do NOT read addresses aloud, state the count, or describe the results. Just say 'options are on screen' or 'take a look'.") ].

Definition loose_args (query : string) : json :=
  JDict [ ("query", JStr query); ("intent", JStr "general");
          ("isAutocomplete", JBool true) ].

Definition strict_args (query : string) : json :=
  JDict [ ("query", JStr query); ("intent", JStr "address");
          ("maxResults", jnat 1); ("isAutocomplete", JBool false) ].

Definition single_args (query intent : string) : json :=
  JDict [ ("query", JStr query); ("intent", JStr intent);
          ("maxResults", jnat 5); ("isAutocomplete", JBool true) ].

(** One lookup of the dual search: the reply, or [None] when the call
    raised. *)
Definition tolerant_lookup (args : json) : M (option (Body SuggestionsReply)) :=
  try_except
    (result <- _call_convex_action getPlaceSuggestions getPlaceSuggestions_path args ;;
     ret (Some result))
    (fun _ => ret None).

Definition search_address (query : string) : M json :=
  write_state (set_current_selection None) ;;
  write_state (set_selection_acknowledged_field false) ;;
  let intent := _classify_intent query in
  if String.eqb intent "address" then
    try_except
      (loose_result <- tolerant_lookup (loose_args query) ;;
       strict_result <- tolerant_lookup (strict_args query) ;;
       let strict_value := value_or_empty strict_result in
       let loose_value := value_or_empty loose_result in
       match truthy (sr_success strict_value), sr_suggestions strict_value with
       | true, Some (validated :: _) =>
           let all_suggestions :=
             if truthy (sr_success loose_value)
             then get (sr_suggestions loose_value) []
             else [validated] in
           let detected_intent := get (sr_detectedIntent strict_value) intent in
           write_state (set_last_query (Some query)) ;;
           write_state (set_last_suggestions all_suggestions) ;;
           _push_state_update "suggestions"
             (suggestions_data query detected_intent all_suggestions) ;;
           ret validated_reply
       | _, _ =>
           match truthy (sr_success loose_value), sr_suggestions loose_value with
           | true, Some ((_ :: _) as suggestions) =>
               let detected_intent := get (sr_detectedIntent loose_value) intent in
               write_state (set_last_query (Some query)) ;;
               write_state (set_last_suggestions suggestions) ;;
               _push_state_update "suggestions"
                 (suggestions_data query detected_intent suggestions) ;;
               ret (loose_suggestions_reply (List.length suggestions))
           | _, _ => ret validation_failed_reply
           end
       end)
      (fun e => ret (error_reply (str e)))
  else
    outcome <- attempt (_call_convex_action getPlaceSuggestions
                          getPlaceSuggestions_path (single_args query intent)) ;;
    match outcome with
    | inl e => ret (error_reply ("Search failed: " ++ str e))
    | inr result =>
        let value := value_of result in
        if negb (truthy (sr_success value)) then
          ret (error_reply (get (sr_error value) "Unknown error"))
        else
          let suggestions := get (sr_suggestions value) [] in
          let detected_intent := get (sr_detectedIntent value) intent in
          write_state (set_last_query (Some query)) ;;
          write_state (set_last_suggestions suggestions) ;;
          _push_state_update "suggestions"
            (suggestions_data query detected_intent suggestions) ;;
          match suggestions with
          | [] => ret (no_results_reply query)
          | _ => ret (suggestions_reply (List.length suggestions))
          end
    end.

(** [s.get("placeId") == place_id] *)
Definition has_place_id (place_id : string) (s : Suggestion) : bool :=
  match sg_placeId s with
  | Some p => String.eqb p place_id
  | None => false
  end.

(** [enriched.update({...})] with the fields of [details]. *)
Definition enrich (enriched : Suggestion) (details : Details) : Suggestion :=
  mkSuggestion
    (sg_placeId enriched)
    (Some (get (dt_formattedAddress details) (get (sg_description enriched) "")))
    (sg_resultType enriched)
    (match dt_suburb details with
     | Some suburb => Some suburb
     | None => sg_suburb enriched
     end)
    (sg_confidence enriched)
    (Some (get (dt_types details) (get (sg_types enriched) [])))
    (sg_structuredFormatting enriched)
    (dt_postcode details)
    (dt_lat details)
    (dt_lng details).

Definition not_found_reply (place_id : string) : json :=
  JDict
    [ ("status", JStr "not_found");
      ("error", JStr ("No suggestion with place ID '" ++ place_id
                      ++ "' in current results. Use search_address to refresh.")) ].

Definition confirmed_reply : json :=
  JDict
    [ ("status", JStr "confirmed");
      ("message", JStr "Done.");
      ("note", JStr "IMPORTANT: Do NOT read the address aloud. It is visible on screen. Say 'got it', 'done', or ask what's next.") ].

(** The copy of [suggestion] with the place details merged in, when the
    details lookup gives any. *)
Definition enriched_copy (place_id : string) (suggestion : Suggestion) : M Suggestion :=
  try_except
    (result <- _call_convex_action getPlaceDetails getPlaceDetails_path
                 (JDict [ ("placeId", JStr place_id) ]) ;;
     let value := value_of result in
     match truthy (dr_success value), dr_details value with
     | true, Some details =>
         if details_nonempty details then ret (enrich suggestion details)
         else ret suggestion
     | _, _ => ret suggestion
     end)
    (fun _ => ret suggestion).

(** A suggestion found by its place id has that key, so [not suggestion]
    holds only when the scan found none. *)
Definition select_suggestion (place_id : string) : M json :=
  st <- read_state ;;
  match find (has_place_id place_id) (last_suggestions st) with
  | None => ret (not_found_reply place_id)
  | Some suggestion =>
      enriched <- enriched_copy place_id suggestion ;;
      write_state (set_current_selection (Some enriched)) ;;
      _push_state_update "selection"
        (JDict [ ("suggestion", _format_suggestion enriched) ]) ;;
      ret confirmed_reply
  end.

Definition ordinal_map : list (string * nat) :=
  [ ("first", 0); ("1", 0); ("1st", 0);
    ("second", 1); ("2", 1); ("2nd", 1);
    ("third", 2); ("3", 2); ("3rd", 2);
    ("fourth", 3); ("4", 3); ("4th", 3);
    ("fifth", 4); ("5", 4); ("5th", 4) ].

(** [table.get(key)] *)
Fixpoint lookup {A : Type} (key : string) (table : list (string * A)) : option A :=
  match table with
  | [] => None
  | (k, v) :: rest => if String.eqb k key then Some v else lookup key rest
  end.

Definition raise {A : Type} (e : exn) : M A := fun _ w => (inl e, w).

(** The [TypeError] of a call of a tool descriptor. *)
Definition not_callable : exn := Exn "'_ToolDescriptor' object is not callable".

(** [tool(ctx, argument)] written inside the module, [tool] being a name
    that [@loopback_tool] has rebound: the descriptor is not callable, so
    the call raises before anything of the tool runs. *)
Definition call_by_name {A : Type} (tool : string -> M A) (argument : string) : M A :=
  raise not_callable.

Definition select_by_ordinal (ordinal : string) : M json :=
  match lookup (PyStr.strip (PyStr.lower ordinal)) ordinal_map with
  | None =>
      ret (error_reply ("Didn't understand '" ++ ordinal
                        ++ "'. Please say first, second, third, etc."))
  | Some index =>
      st <- read_state ;;
      let suggestions := last_suggestions st in
      match suggestions with
      | [] =>
          ret (error_reply
                 "No search results to select from. Please search for an address first.")
      | _ =>
          if List.length suggestions <=? index then
            ret (error_reply
                   ("Only " ++ PyStr.str_of_nat (List.length suggestions)
                    ++ " results available. Choose 1 to "
                    ++ PyStr.str_of_nat (List.length suggestions) ++ "."))
          else
            match nth_error suggestions index with
            | None => raise (Exn "list index out of range")
            | Some selected =>
                let place_id := get (sg_placeId selected) "" in
                if String.eqb place_id "" then
                  ret (error_reply
                         "That suggestion doesn't have a valid place ID. Try another.")
                else call_by_name select_suggestion place_id
            end
      end
  end.

Definition get_current_state : M json :=
  st <- read_state ;;
  let selection := current_selection st in
  ret (JDict
         [ ("last_query", jstr_or_null (last_query st));
           ("num_suggestions", jnat (List.length (last_suggestions st)));
           ("has_selection",
            JBool (match selection with Some _ => true | None => false end));
           ("selection_acknowledged", JBool (selection_acknowledged st));
           ("current_selection",
            match selection with
            | Some s =>
                JDict [ ("description", JStr (get (sg_description s) ""));
                        ("suburb", jstr_or_null (sg_suburb s));
                        ("postcode", jstr_or_null (sg_postcode s)) ]
            | None => JNull
            end) ]).

Definition clear_selection : M json :=
  _reset_state ;;
  _push_state_update "clear" (JDict []) ;;
  ret (JDict [ ("status", JStr "cleared");
               ("message", JStr "Ready for a new search.") ]).

Definition show_options_again : M json :=
  st <- read_state ;;
  let suggestions := last_suggestions st in
  match suggestions, last_query st with
  | _ :: _, Some (String _ _ as query) =>
      write_state (set_current_selection None) ;;
      write_state (set_selection_acknowledged_field false) ;;
      _push_state_update "show_options_again"
        (suggestions_data query "general" suggestions) ;;
      ret (JDict
             [ ("status", JStr "options_displayed");
               ("count", jnat (List.length suggestions));
               ("message", JStr "Previous options are on screen again.");
               ("note", JStr "Do NOT list the options. They are visible on screen.") ])
  | _, _ => ret (error_reply "No previous options available.")
  end.

Definition confirm_user_selection : M json :=
  st <- read_state ;;
  match current_selection st with
  | None => ret (error_reply "No selection to confirm.")
  | Some _ =>
      ret (JDict [ ("status", JStr "acknowledged");
                   ("message", JStr "Selection confirmed.") ])
  end.

Definition set_selection_acknowledged (acknowledged : string) : M json :=
  let is_ack := PyStr.mem (PyStr.strip (PyStr.lower acknowledged)) ["true"; "1"; "yes"] in
  write_state (set_selection_acknowledged_field is_ack) ;;
  _push_state_update "selection_acknowledged"
    (JDict [ ("acknowledged", JBool is_ack) ]) ;;
  ret (JDict [ ("status", JStr "ok");
               ("selection_acknowledged", JBool is_ack) ]).

Definition request_manual_input (reason : string) : M json :=
  _push_state_update "request_manual_input" (JDict [ ("reason", JStr reason) ]) ;;
  ret (JDict [ ("status", JStr "hybrid_mode_activated");
               ("message", JStr "Manual input enabled.") ]).

(** ** Observations on replies and traces *)

(** The ["status"] of a reply document. *)
Definition status (reply : json) : option string :=
  match reply with
  | JDict d =>
      match lookup "status" d with
      | Some (JStr s) => Some s
      | _ => None
      end
  | _ => None
  end.

Definition is_mutation (e : Event) : bool :=
  match e with
  | EvMutation _ _ _ => true
  | EvAction _ _ _ => false
  end.

Definition event_state (e : Event) : SessionState :=
  match e with
  | EvAction _ _ s => s
  | EvMutation _ _ s => s
  end.

(** The notifications pushed to the UI bridge, oldest first. *)
Definition notifications (t : list Event) : list Event := filter is_mutation t.

(** The ["updateType"] of a pushed notification. *)
Definition update_type (e : Event) : option string :=
  match e with
  | EvMutation _ (JDict d) _ =>
      match lookup "updateType" d with
      | Some (JStr s) => Some s
      | _ => None
      end
  | _ => None
  end.

(** ** The classifier as the specification words it *)

(** The tokens of a query, compared without regard to case. *)
Definition tokens (query : string) : list string :=
  map PyStr.lower (PyStr.split query).

(** First match wins: a first token starting with a decimal digit; a token
    that is a street-type word; a single token of length at least 3; two
    tokens and no digit character anywhere in the query. *)
Definition classify_spec (query : string) : string :=
  let ts := tokens query in
  if first_word_starts_with_digit ts then "address"
  else if existsb (fun t => PyStr.mem t street_keywords) ts then "street"
  else
    match ts with
    | [t] => if 3 <=? String.length t then "suburb" else "general"
    | [_; _] => if PyStr.any PyStr.isdigit query then "general" else "suburb"
    | _ => "general"
    end.

(** ** Vocabulary of the statements *)

(** No selection, and the acknowledgement flag down. *)
Definition cleared (s : SessionState) : Prop :=
  current_selection s = None /\ selection_acknowledged s = false.

(** The session state a search leaves when it stores nothing: the state
    before the call with the selection cleared. *)
Definition selection_cleared (s : SessionState) : SessionState :=
  set_selection_acknowledged_field false (set_current_selection None s).

(** [be] with the notification channel behaving as [push]. *)
Definition with_push (be : Backend) (push : list Event -> json -> option exn) : Backend :=
  mkBackend (getPlaceSuggestions be) (getPlaceDetails be) push.

(** A tool whose outcome and final world do not depend on how the
    notification channel behaves. *)
Definition push_blind {A : Type} (m : M A) : Prop :=
  forall be push1 push2 w, m (with_push be push1) w = m (with_push be push2) w.

(** A lookup reply that cannot be used: the call raised, or the reply does
    not report success. *)
Definition lookup_failed (outcome : exn + Body SuggestionsReply) : Prop :=
  match outcome with
  | inl _ => True
  | inr body => truthy (sr_success (value_of body)) = false
  end.

(** The error text of a failed single lookup. *)
Definition lookup_error (outcome : exn + Body SuggestionsReply) : string :=
  match outcome with
  | inl e => "Search failed: " ++ str e
  | inr body => get (sr_error (value_of body)) "Unknown error"
  end.

Definition ordinal_words : list string :=
  [ "first"; "second"; "third"; "fourth"; "fifth" ].
Definition ordinal_suffixed : list string :=
  [ "1st"; "2nd"; "3rd"; "4th"; "5th" ].

(** The token an ordinal is looked up under. *)
Definition ordinal_key (ordinal : string) : string :=
  PyStr.strip (PyStr.lower ordinal).

(** Since the trace was [before]: the selection is cleared, and every
    request sent since then was sent with the selection cleared. *)
Definition cleared_since (before : list Event) (w : World) : Prop :=
  cleared (session w)
  /\ exists sent, trace w = before ++ sent
                  /\ Forall (fun e => cleared (event_state e)) sent.

(** A tool that keeps [P] true of the world, whatever the backend does. *)
Definition keeps {A : Type} (P : World -> Prop) (m : M A) : Prop :=
  forall be w, P w -> P (snd (m be w)).

(** The outcomes of the lookups a search makes from world [w]: the loose
    lookup goes out first, the strict one second, both after the selection
    is cleared; a query that is not of address intent has a single
    lookup. *)
Definition loose_outcome (be : Backend) (w : World) (query : string)
    : exn + Body SuggestionsReply :=
  getPlaceSuggestions be (trace w) (loose_args query).

Definition lookup_event (args : json) (s : SessionState) : Event :=
  EvAction getPlaceSuggestions_path args s.

Definition strict_outcome (be : Backend) (w : World) (query : string)
    : exn + Body SuggestionsReply :=
  getPlaceSuggestions be
    (trace w ++ [lookup_event (loose_args query) (selection_cleared (session w))])
    (strict_args query).

(** The notification [_push_state_update] sends in session state [s]. *)
Definition push_event (update_type : string) (data : json) (s : SessionState) : Event :=
  EvMutation pushUpdate_path (push_args (session_id s) update_type data) s.

Definition single_outcome (be : Backend) (w : World) (query : string)
    : exn + Body SuggestionsReply :=
  getPlaceSuggestions be (trace w) (single_args query (_classify_intent query)).

(** The reply a lookup contributes: its value, or [{}] when it raised. *)
Definition reply_of (outcome : exn + Body SuggestionsReply) : SuggestionsReply :=
  match outcome with
  | inr body => value_of body
  | inl _ => empty_reply
  end.

(** A reply that reports success and carries at least one suggestion. *)
Definition usable (r : SuggestionsReply) : bool :=
  truthy (sr_success r)
  && match sr_suggestions r with
     | Some (_ :: _) => true
     | _ => false
     end.

(** The status of a tool's outcome; a tool that raised has none. *)
Definition reply_status (outcome : exn + json) : option string :=
  match outcome with
  | inr reply => status reply
  | inl _ => None
  end.

Definition details_event (place_id : string) (s : SessionState) : Event :=
  EvAction getPlaceDetails_path (JDict [ ("placeId", JStr place_id) ]) s.

(** A selection drawn from [suggestion]: the suggestion itself or the
    suggestion with place details merged in. *)
Definition drawn_from (suggestion chosen : Suggestion) : Prop :=
  chosen = suggestion \/ exists details, chosen = enrich suggestion details.

(** ** Sample data *)

(** The module-level [_session_state] at start-up, for a session id. *)
Definition _session_state (sid : string) : SessionState :=
  mkSessionState None [] None false sid.

Definition place (id description : string) : Suggestion :=
  mkSuggestion (Some id) (Some description) None None None None None None None None.

Definition place1 : Suggestion := place "p1" "1 Smith Street, Richmond VIC".
Definition place2 : Suggestion := place "p2" "1 Smith Street, Fitzroy VIC".
Definition place3 : Suggestion := place "p3" "1 Smith Street, Kew VIC".

(** A suggestion without a place id. *)
Definition nameless : Suggestion :=
  mkSuggestion None (Some "Smith Street") None None None None None None None None.

Definition found (suggestions : list Suggestion) : exn + Body SuggestionsReply :=
  inr (Wrapped (mkSuggestionsReply (Some true) (Some suggestions) None None)).

Definition refused : exn + Body SuggestionsReply :=
  inr (Wrapped (mkSuggestionsReply (Some false) None None (Some "quota exceeded"))).

Definition timed_out {R : Type} : exn + R := inl (Exn "timed out").

(** Whether the arguments of a lookup ask for the strict (address) mode. *)
Definition asks_strict (args : json) : bool :=
  match args with
  | JDict d =>
      match lookup "intent" d with
      | Some (JStr intent) => String.eqb intent "address"
      | _ => false
      end
  | _ => false
  end.

(** A backend that answers loose and strict lookups as given, has no place
    details, and accepts every notification. *)
Definition dual_backend (loose strict : exn + Body SuggestionsReply) : Backend :=
  mkBackend
    (fun _ args => if asks_strict args then strict else loose)
    (fun _ _ => timed_out)
    (fun _ _ => None).

(** A backend that answers every lookup the same way. *)
Definition single_backend (answer : exn + Body SuggestionsReply) : Backend :=
  dual_backend answer answer.

Definition start (s : SessionState) : World := mkWorld s [].

(** A session that holds three candidates of the query ["1 smith street"]. *)
Definition three_candidates : SessionState :=
  mkSessionState (Some "1 smith street") [place1; place2; place3] None false "default".

Definition one_candidate : SessionState :=
  mkSessionState (Some "1 smith street") [place1] None false "default".

(** A session with [place1] selected and acknowledged. *)
Definition selected_and_acknowledged : SessionState :=
  mkSessionState (Some "1 smith street") [place1; place2; place3]
    (Some place1) true "default".

(** A backend that is unreachable for lookups and details and accepts
    notifications. *)
Definition offline : Backend := single_backend timed_out.

(** The session at start-up, for the default session id. *)
Definition fresh : World := start (_session_state "default").

(** A session whose only candidate has no place id. *)
Definition nameless_candidate : SessionState :=
  mkSessionState (Some "smith street") [nameless] None false "default".

(** ** Tool calls *)

(** One invocation of a tool of [ALL_TOOLS], with its argument. *)
Inductive Call : Type :=
| Search (query : string)
| Select (place_id : string)
| SelectOrdinal (ordinal : string)
| GetState
| Clear
| ShowAgain
| Confirm
| SetAcknowledged (acknowledged : string)
| ManualInput (reason : string).

(** The tool a call runs: the SDK runs the function behind the
    descriptor. *)
Definition call (c : Call) : M json :=
  match c with
  | Search query => search_address query
  | Select place_id => select_suggestion place_id
  | SelectOrdinal ordinal => select_by_ordinal ordinal
  | GetState => get_current_state
  | Clear => clear_selection
  | ShowAgain => show_options_again
  | Confirm => confirm_user_selection
  | SetAcknowledged acknowledged => set_selection_acknowledged acknowledged
  | ManualInput reason => request_manual_input reason
  end.

(** The world after a sequence of calls, one after the other. *)
Fixpoint call_all (cs : list Call) (be : Backend) (w : World) : World :=
  match cs with
  | [] => w
  | c :: rest => call_all rest be (snd (call c be w))
  end.

(** The statuses a tool answers with; [get_current_state] answers a
    document without a status. *)
Definition statuses (c : Call) : list string :=
  match c with
  | Search _ =>
      [ "validated"; "suggestions_available"; "no_results";
        "validation_failed"; "error" ]
  | Select _ => [ "not_found"; "confirmed" ]
  | SelectOrdinal _ => [ "error" ]
  | GetState => []
  | Clear => [ "cleared" ]
  | ShowAgain => [ "error"; "options_displayed" ]
  | Confirm => [ "error"; "acknowledged" ]
  | SetAcknowledged _ => [ "ok" ]
  | ManualInput _ => [ "hybrid_mode_activated" ]
  end.

(** The keys of a JSON object, in order. *)
Definition keys (document : json) : list string :=
  match document with
  | JDict d => map fst d
  | _ => []
  end.

(** The value under a key of a JSON object. *)
Definition field (key : string) (document : json) : option json :=
  match document with
  | JDict d => lookup key d
  | _ => None
  end.

(** The requests (lookups and place details) among the events of a
    trace, oldest first. *)
Definition requests (t : list Event) : list Event :=
  filter (fun e => negb (is_mutation e)) t.

(** What holds of the session state at start-up and after every tool: a
    selection is drawn from one of the stored candidates and carries that
    candidate's place id, and stored candidates come with a stored
    query. *)
Definition consistent (s : SessionState) : Prop :=
  (forall chosen,
      current_selection s = Some chosen ->
      exists candidate place_id,
        In candidate (last_suggestions s)
        /\ drawn_from candidate chosen
        /\ sg_placeId chosen = Some place_id)
  /\ (last_suggestions s <> [] -> last_query s <> None).

(** A session with two candidates under one place id. *)
Definition twin1 : Suggestion := place "dup" "5 High Street, Northcote VIC".
Definition twin2 : Suggestion := place "dup" "5 High Street, Preston VIC".
Definition twins : SessionState :=
  mkSessionState (Some "5 high street") [twin1; twin2] None false "default".

(** Place details as the backend may return them. *)
Definition richmond_details : Details :=
  mkDetails (Some "1 Smith Street, Richmond VIC 3121, Australia")
    (Some "Richmond") (Some "3121") None None (Some ["street_address"]).

(** A backend without suggestions that returns [details] for any place. *)
Definition details_backend (details : Details) : Backend :=
  mkBackend
    (fun _ _ => timed_out)
    (fun _ _ => inr (Wrapped (mkDetailsReply (Some true) (Some details))))
    (fun _ _ => None).

(** The outcome of the place-details request select-by-identifier makes
    from world [w]. *)
Definition details_outcome (be : Backend) (w : World) (place_id : string)
    : exn + Body DetailsReply :=
  getPlaceDetails be (trace w) (JDict [ ("placeId", JStr place_id) ]).

(** A details outcome that brings nothing to merge: the call raised, the
    reply does not report success, or it has no details or empty ones. *)
Definition details_unusable (outcome : exn + Body DetailsReply) : Prop :=
  match outcome with
  | inl _ => True
  | inr body =>
      truthy (dr_success (value_of body)) = false
      \/ dr_details (value_of body) = None
      \/ dr_details (value_of body) = Some (mkDetails None None None None None None)
  end.

(** The kinds of notification the tools push. *)
Definition update_types : list string :=
  [ "suggestions"; "selection"; "clear"; "show_options_again";
    "selection_acknowledged"; "request_manual_input" ].

(** An event of the session [sid]: a request to one of the two backend
    actions, or a push to the update mutation under the session id and
    under one of the kinds of notification. *)
Definition well_addressed (sid : string) (e : Event) : Prop :=
  match e with
  | EvAction path _ _ =>
      path = getPlaceSuggestions_path \/ path = getPlaceDetails_path
  | EvMutation path args _ =>
      path = pushUpdate_path
      /\ field "sessionId" args = Some (JStr sid)
      /\ exists kind, field "updateType" args = Some (JStr kind) /\ In kind update_types
  end.

(** * Properties *)

(** ** Characters and strings *)

Module PyStrFacts.
Import PyStr.

Ltac each_char c := destruct c as [[] [] [] [] [] [] [] []]; vm_compute; reflexivity.

Lemma isspace_lower_char c : isspace (lower_char c) = isspace c.
Proof. each_char c. Qed.

Lemma isdigit_lower_char c : isdigit (lower_char c) = isdigit c.
Proof. each_char c. Qed.

Lemma re_digit_lower_char c : re_digit (lower_char c) = re_digit c.
Proof. each_char c. Qed.

Lemma space_not_digit c : isspace c = true -> isdigit c = false.
Proof. destruct c as [[] [] [] [] [] [] [] []]; vm_compute; congruence. Qed.

Lemma digit_not_space c : re_digit c = true -> isspace c = false.
Proof. destruct c as [[] [] [] [] [] [] [] []]; vm_compute; congruence. Qed.

(** The two digit classes differ on the superscripts of Latin-1 only:
    [str.isdigit] accepts them, [\d] does not. *)
Lemma digit_classes c :
  isdigit c = re_digit c || (code c =? 178) || (code c =? 179) || (code c =? 185).
Proof. each_char c. Qed.

(** On ASCII characters the two digit classes are one. *)
Lemma isdigit_ascii c : code c < 128 -> isdigit c = re_digit c.
Proof.
  destruct c as [[] [] [] [] [] [] [] []]; vm_compute; try reflexivity; lia.
Qed.

Lemma starts_word_lower s : starts_word (lower s) = starts_word s.
Proof. destruct s; cbn; [reflexivity | now rewrite isspace_lower_char]. Qed.

Lemma cons_head_lower c ws :
  cons_head (lower_char c) (map lower ws) = map lower (cons_head c ws).
Proof. destruct ws; reflexivity. Qed.

Lemma split_lower s : split (lower s) = map lower (split s).
Proof.
  induction s as [|c s IH]; [reflexivity|].
  cbn [lower split]. rewrite isspace_lower_char, starts_word_lower, IH.
  destruct (isspace c); [reflexivity|].
  destruct (starts_word s); [apply cons_head_lower | reflexivity].
Qed.

Lemma split_lstrip s : split (lstrip s) = split s.
Proof.
  induction s as [|c s IH]; [reflexivity|].
  cbn [lstrip]. destruct (isspace c) eqn:E; [|reflexivity].
  rewrite IH. cbn [split]. now rewrite E.
Qed.

Lemma rstrip_cons c s :
  rstrip (String c s) = EmptyString \/ exists r, rstrip (String c s) = String c r.
Proof.
  cbn [rstrip]. destruct (rstrip s).
  - destruct (isspace c); [now left | right; now eexists].
  - right; now eexists.
Qed.

Lemma starts_word_rstrip s :
  rstrip s <> EmptyString -> starts_word (rstrip s) = starts_word s.
Proof.
  destruct s as [|c s]; [reflexivity|].
  intros H. destruct (rstrip_cons c s) as [E | [r E]]; [contradiction|].
  now rewrite E.
Qed.

Lemma split_rstrip s : split (rstrip s) = split s.
Proof.
  induction s as [|c s IH]; [reflexivity|].
  cbn [rstrip]. destruct (rstrip s) as [|d r] eqn:E.
  - cbn [split] in IH. cbn [split]. rewrite <- IH.
    destruct (isspace c) eqn:Ec; [reflexivity|].
    cbn [split starts_word]. rewrite Ec. destruct (starts_word s); reflexivity.
  - assert (Hs : starts_word (String d r) = starts_word s).
    { rewrite <- E. apply starts_word_rstrip. rewrite E. discriminate. }
    remember (String d r) as r' eqn:Er.
    cbn [split]. rewrite IH, Hs. reflexivity.
Qed.

Lemma split_strip s : split (strip s) = split s.
Proof. unfold strip. now rewrite split_rstrip, split_lstrip. Qed.

(** The words of the normalised query are the tokens of the query. *)
Lemma split_normalised s : split (lower (strip s)) = map lower (split s).
Proof. now rewrite split_lower, split_strip. Qed.

Lemma split_nil_rstrip s : split s = [] -> rstrip s = EmptyString.
Proof.
  induction s as [|c s IH]; [reflexivity|].
  cbn [split rstrip]. destruct (isspace c).
  - intros H. now rewrite (IH H).
  - destruct (starts_word s); [destruct (split s)|]; discriminate.
Qed.

Lemma starts_word_split s : starts_word s = true -> split s <> [].
Proof.
  destruct s as [|c s]; [discriminate|].
  cbn [starts_word split]. destruct (isspace c); [discriminate|].
  intros _. destruct (starts_word s); [destruct (split s)|]; discriminate.
Qed.

Lemma split_single_rstrip s t :
  starts_word s = true -> split s = [t] -> rstrip s = t.
Proof.
  revert t. induction s as [|c s IH]; intros t Hw Hs; [discriminate|].
  cbn [starts_word] in Hw. cbn [split] in Hs.
  destruct (isspace c) eqn:Ec; [discriminate|].
  cbn [rstrip]. destruct (starts_word s) eqn:Es.
  - pose proof (starts_word_split s Es) as Hne.
    destruct (split s) as [|w [|w' rest]] eqn:Ew; try contradiction;
      cbn [cons_head] in Hs; [|discriminate].
    injection Hs as <-. rewrite (IH w eq_refl eq_refl).
    destruct w; [|reflexivity].
    exfalso. destruct s as [|d s]; [discriminate|].
    cbn [starts_word] in Es. cbn [split] in Ew.
    destruct (isspace d); [discriminate|].
    destruct (starts_word s); [destruct (split s)|]; discriminate.
  - destruct (split s) eqn:Ew; [|discriminate].
    injection Hs as <-. rewrite (split_nil_rstrip s Ew). now rewrite Ec.
Qed.

Lemma lstrip_starts_word s : lstrip s = EmptyString \/ starts_word (lstrip s) = true.
Proof.
  induction s as [|c s IH]; [now left|].
  cbn [lstrip]. destruct (isspace c) eqn:E; [exact IH|].
  right. cbn [starts_word]. now rewrite E.
Qed.

(** A query of one token is, once stripped, that token. *)
Lemma split_single_strip s t : split s = [t] -> strip s = t.
Proof.
  intros H. unfold strip. rewrite <- split_lstrip in H.
  destruct (lstrip_starts_word s) as [E | E].
  - rewrite E in H. discriminate.
  - now apply split_single_rstrip.
Qed.

Lemma any_isdigit_lower s : any isdigit (lower s) = any isdigit s.
Proof.
  induction s as [|c s IH]; [reflexivity|].
  cbn [lower any]. now rewrite isdigit_lower_char, IH.
Qed.

Lemma any_isdigit_lstrip s : any isdigit (lstrip s) = any isdigit s.
Proof.
  induction s as [|c s IH]; [reflexivity|].
  cbn [lstrip]. destruct (isspace c) eqn:E; [|reflexivity].
  cbn [any]. now rewrite (space_not_digit c E), IH.
Qed.

Lemma any_isdigit_rstrip s : any isdigit (rstrip s) = any isdigit s.
Proof.
  induction s as [|c s IH]; [reflexivity|].
  cbn [rstrip any]. rewrite <- IH. destruct (rstrip s).
  - destruct (isspace c) eqn:E.
    + now rewrite (space_not_digit c E).
    + reflexivity.
  - reflexivity.
Qed.

Lemma any_isdigit_normalised s : any isdigit (lower (strip s)) = any isdigit s.
Proof.
  unfold strip. now rewrite any_isdigit_lower, any_isdigit_rstrip, any_isdigit_lstrip.
Qed.

End PyStrFacts.

(** ** The intent classifier *)

Lemma leading_digit_is_address c rest :
  PyStr.re_digit c = true -> _classify_intent (String c rest) = "address".
Proof.
  intros Hd. unfold _classify_intent. rewrite PyStrFacts.split_normalised.
  assert (Hw : exists w ws, PyStr.split (String c rest) = String c w :: ws).
  { cbn [PyStr.split]. rewrite (PyStrFacts.digit_not_space c Hd).
    destruct (PyStr.starts_word rest).
    - destruct (PyStr.split rest) as [|w ws]; cbn [PyStr.cons_head]; eauto.
    - eauto. }
  destruct Hw as [w [ws ->]]. cbn [map PyStr.lower first_word_starts_with_digit].
  now rewrite PyStrFacts.re_digit_lower_char, Hd.
Qed.

(** C2.  For every query the classifier applies the five checks in the
    order the specification lists, the first match winning: a first token
    that starts with a digit gives address; a token equal to a street-type
    word gives street; a single token of length at least 3 gives suburb;
    two tokens and no digit anywhere give suburb; anything else is
    general.  A query that starts with a digit is an address, and the
    five sample queries classify as the specification says. *)
Theorem classify_first_match_wins :
  (forall query, _classify_intent query = classify_spec query)
  /\ (forall c rest,
        PyStr.re_digit c = true -> _classify_intent (String c rest) = "address")
  /\ _classify_intent "123 Smith Street" = "address"
  /\ _classify_intent "Smith Street" = "street"
  /\ _classify_intent "Richmond" = "suburb"
  /\ _classify_intent "North Richmond" = "suburb"
  /\ _classify_intent "looking for somewhere nice" = "general".
Proof.
  split; [|split; [exact leading_digit_is_address | repeat split; reflexivity]].
  intros query. unfold _classify_intent, classify_spec, tokens.
  rewrite PyStrFacts.split_normalised, PyStrFacts.any_isdigit_normalised.
  destruct (first_word_starts_with_digit _); [reflexivity|].
  destruct (existsb _ _); [reflexivity|].
  destruct (PyStr.split query) as [|t [|t' [|t'' rest]]] eqn:E; cbn [map List.length Nat.eqb andb];
    try reflexivity.
  - rewrite (PyStrFacts.split_single_strip query t E). reflexivity.
  - now destruct (PyStr.any PyStr.isdigit query).
Qed.

(** C2 at work on a query that starts with a digit. *)
Lemma classify_first_match_wins_witness :
  PyStr.re_digit "9"%char = true
  /\ _classify_intent "9 Acacia Avenue" = "address".
Proof.
  split; [reflexivity|].
  apply (proj1 (proj2 classify_first_match_wins) "9"%char " Acacia Avenue").
  reflexivity.
Defined.

(** ** The tool monad *)

Section PushBlind.

Lemma push_blind_ret {A} (a : A) : push_blind (ret a).
Proof. intros be p1 p2 w. reflexivity. Qed.

Lemma push_blind_raise {A} (e : exn) : push_blind (@raise A e).
Proof. intros be p1 p2 w. reflexivity. Qed.

Lemma push_blind_bind {A B} (m : M A) (k : A -> M B) :
  push_blind m -> (forall a, push_blind (k a)) -> push_blind (bind m k).
Proof.
  intros Hm Hk be p1 p2 w. unfold bind. rewrite (Hm be p1 p2 w).
  destruct (m (with_push be p2) w) as [[e | a] w']; [reflexivity | apply Hk].
Qed.

Lemma push_blind_try_except {A} (m : M A) (handler : exn -> M A) :
  push_blind m -> (forall e, push_blind (handler e)) -> push_blind (try_except m handler).
Proof.
  intros Hm Hh be p1 p2 w. unfold try_except. rewrite (Hm be p1 p2 w).
  destruct (m (with_push be p2) w) as [[e | a] w']; [apply Hh | reflexivity].
Qed.

Lemma push_blind_attempt {A} (m : M A) : push_blind m -> push_blind (attempt m).
Proof.
  intros Hm. apply push_blind_try_except.
  - apply push_blind_bind; [exact Hm | intro; apply push_blind_ret].
  - intro; apply push_blind_ret.
Qed.

Lemma push_blind_read_state : push_blind read_state.
Proof. intros be p1 p2 w. reflexivity. Qed.

Lemma push_blind_write_state f : push_blind (write_state f).
Proof. intros be p1 p2 w. reflexivity. Qed.

Lemma push_blind_suggestions path args :
  push_blind (_call_convex_action getPlaceSuggestions path args).
Proof. intros be p1 p2 w. reflexivity. Qed.

Lemma push_blind_details path args :
  push_blind (_call_convex_action getPlaceDetails path args).
Proof. intros be p1 p2 w. reflexivity. Qed.

(** The heart of the matter: [_push_state_update] swallows whatever the
    channel raises. *)
Lemma push_blind_push update_type data :
  push_blind (_push_state_update update_type data).
Proof.
  intros be p1 p2 w.
  unfold _push_state_update, bind, read_state, try_except, _call_convex_mutation, ret.
  cbn [with_push pushUpdate]. destruct (p1 _ _), (p2 _ _); reflexivity.
Qed.

End PushBlind.

Ltac blind_step :=
  lazymatch goal with
  | |- push_blind (bind _ _) => apply push_blind_bind; [| intro]
  | |- push_blind (ret _) => apply push_blind_ret
  | |- push_blind (raise _) => apply push_blind_raise
  | |- push_blind (try_except _ _) => apply push_blind_try_except; [| intro]
  | |- push_blind (attempt _) => apply push_blind_attempt
  | |- push_blind read_state => apply push_blind_read_state
  | |- push_blind (write_state _) => apply push_blind_write_state
  | |- push_blind (_push_state_update _ _) => apply push_blind_push
  | |- push_blind (_call_convex_action getPlaceSuggestions _ _) =>
      apply push_blind_suggestions
  | |- push_blind (_call_convex_action getPlaceDetails _ _) =>
      apply push_blind_details
  | |- push_blind (match ?x with _ => _ end) => destruct x
  end.

Ltac blind := cbv zeta; repeat blind_step.

Lemma push_blind_select_suggestion place_id : push_blind (select_suggestion place_id).
Proof. unfold select_suggestion, enriched_copy. blind. Qed.

Section ClearedSince.

Variable before : list Event.

Lemma keeps_ret {A} (a : A) : keeps (cleared_since before) (ret a).
Proof. intros be w H. exact H. Qed.

Lemma keeps_bind {A B} (m : M A) (k : A -> M B) :
  keeps (cleared_since before) m ->
  (forall a, keeps (cleared_since before) (k a)) ->
  keeps (cleared_since before) (bind m k).
Proof.
  intros Hm Hk be w H. unfold bind. specialize (Hm be w H).
  destruct (m be w) as [[e | a] w']; [exact Hm | apply Hk, Hm].
Qed.

Lemma keeps_try_except {A} (m : M A) (handler : exn -> M A) :
  keeps (cleared_since before) m ->
  (forall e, keeps (cleared_since before) (handler e)) ->
  keeps (cleared_since before) (try_except m handler).
Proof.
  intros Hm Hh be w H. unfold try_except. specialize (Hm be w H).
  destruct (m be w) as [[e | a] w']; [apply Hh, Hm | exact Hm].
Qed.

Lemma keeps_attempt {A} (m : M A) :
  keeps (cleared_since before) m -> keeps (cleared_since before) (attempt m).
Proof.
  intros Hm. apply keeps_try_except.
  - apply keeps_bind; [exact Hm | intro; apply keeps_ret].
  - intro; apply keeps_ret.
Qed.

Lemma keeps_store_query v : keeps (cleared_since before) (write_state (set_last_query v)).
Proof. intros be w H. exact H. Qed.

Lemma keeps_store_suggestions v :
  keeps (cleared_since before) (write_state (set_last_suggestions v)).
Proof. intros be w H. exact H. Qed.

Lemma cleared_since_request (w : World) (e : Event) :
  event_state e = session w ->
  cleared_since before w ->
  cleared_since before (mkWorld (session w) (trace w ++ [e])).
Proof.
  intros He [Hc [sent [Ht Hs]]]. split; [exact Hc|].
  exists (sent ++ [e]). cbn [trace]. rewrite Ht, app_assoc. split; [reflexivity|].
  apply Forall_app. split; [exact Hs|]. constructor; [|constructor].
  rewrite He. exact Hc.
Qed.

Lemma keeps_action {R} (remote : Backend -> list Event -> json -> exn + Body R) path args :
  keeps (cleared_since before) (_call_convex_action remote path args).
Proof. intros be w H. now apply cleared_since_request. Qed.

Lemma keeps_push update_type data :
  keeps (cleared_since before) (_push_state_update update_type data).
Proof.
  intros be w H.
  unfold _push_state_update, bind, read_state, try_except, _call_convex_mutation, ret.
  cbn. destruct (pushUpdate be _ _); now apply cleared_since_request.
Qed.

End ClearedSince.

Ltac keeps_step :=
  lazymatch goal with
  | |- keeps _ (bind _ _) => apply keeps_bind; [| intro]
  | |- keeps _ (ret _) => apply keeps_ret
  | |- keeps _ (try_except _ _) => apply keeps_try_except; [| intro]
  | |- keeps _ (attempt _) => apply keeps_attempt
  | |- keeps _ (write_state (set_last_query _)) => apply keeps_store_query
  | |- keeps _ (write_state (set_last_suggestions _)) => apply keeps_store_suggestions
  | |- keeps _ (_push_state_update _ _) => apply keeps_push
  | |- keeps _ (_call_convex_action _ _ _) => apply keeps_action
  | |- keeps _ (match ?x with _ => _ end) => destruct x
  end.

(** ** Notifications never decide an outcome *)

(** C8.  Every tool that pushes a notification returns the same reply and
    leaves the same world whether the push succeeds or raises: for any two
    behaviours of the notification channel the runs coincide. *)
Theorem push_failure_never_changes_outcome :
  (forall query, push_blind (search_address query))
  /\ (forall place_id, push_blind (select_suggestion place_id))
  /\ (forall ordinal, push_blind (select_by_ordinal ordinal))
  /\ push_blind clear_selection
  /\ push_blind show_options_again
  /\ (forall acknowledged, push_blind (set_selection_acknowledged acknowledged))
  /\ (forall reason, push_blind (request_manual_input reason)).
Proof.
  repeat split; intros.
  - unfold search_address, tolerant_lookup. blind.
  - apply push_blind_select_suggestion.
  - unfold select_by_ordinal, call_by_name. blind.
  - unfold clear_selection, _reset_state. blind.
  - unfold show_options_again. blind.
  - unfold set_selection_acknowledged. blind.
  - unfold request_manual_input. blind.
Qed.

(** ** Search *)

Lemma search_address_cleared_since query be w :
  cleared_since (trace w) (snd (search_address query be w)).
Proof.
  unfold search_address.
  set (rest := if String.eqb _ _ then _ else _).
  assert (Hrest : keeps (cleared_since (trace w)) rest).
  { subst rest. unfold tolerant_lookup. cbv zeta. repeat keeps_step. }
  unfold bind, write_state. cbn [fst snd]. apply Hrest.
  split; [split; reflexivity|].
  exists []. cbn [trace]. rewrite app_nil_r. split; [reflexivity | constructor].
Qed.

(** C4.  Whatever the query, the prior state and the backend, a search
    ends with no selection and the acknowledgement flag down, and every
    request it sends (lookup or notification) is sent after the selection
    was cleared: the session state at the moment of each request has no
    selection and the flag down. *)
Theorem search_clears_selection_first query be w :
  let w' := snd (search_address query be w) in
  current_selection (session w') = None
  /\ selection_acknowledged (session w') = false
  /\ exists sent,
       trace w' = trace w ++ sent
       /\ Forall (fun request =>
                    current_selection (event_state request) = None
                    /\ selection_acknowledged (event_state request) = false)
            sent.
Proof.
  intros w'. destruct (search_address_cleared_since query be w) as [[Hs Ha] Hsent].
  split; [exact Hs|]. split; [exact Ha|]. exact Hsent.
Qed.

(** A push always returns, and leaves one notification in the trace. *)
Lemma run_push update_type data be w :
  _push_state_update update_type data be w
  = (inr tt, mkWorld (session w) (trace w ++ [push_event update_type data (session w)])).
Proof.
  unfold _push_state_update, bind, read_state, try_except, _call_convex_mutation, ret.
  cbn [session trace]. destruct (pushUpdate be _ _); reflexivity.
Qed.

Ltac run_tool :=
  cbv beta iota zeta delta
    [bind ret raise try_except attempt read_state write_state tolerant_lookup
     _call_convex_action value_or_empty];
  cbn [session trace fst snd].

Ltac run_push_step := rewrite run_push; cbn [session trace fst snd].

Lemma dual_search_validated query be w validated more :
  _classify_intent query = "address" ->
  truthy (sr_success (reply_of (strict_outcome be w query))) = true ->
  sr_suggestions (reply_of (strict_outcome be w query)) = Some (validated :: more) ->
  let loose_value := reply_of (loose_outcome be w query) in
  let all_suggestions :=
    if truthy (sr_success loose_value) then get (sr_suggestions loose_value) []
    else [validated] in
  fst (search_address query be w) = inr validated_reply
  /\ session (snd (search_address query be w))
     = set_last_suggestions all_suggestions
         (set_last_query (Some query) (selection_cleared (session w))).
Proof.
  intros Hc Hs Hl. unfold search_address. rewrite Hc.
  change (String.eqb "address" "address") with true. cbv iota.
  unfold strict_outcome, loose_outcome, lookup_event in *. destruct w as [s t].
  cbn [session trace] in *.
  run_tool.
  destruct (getPlaceSuggestions be t (loose_args query)) as [e1 | loose];
  destruct (getPlaceSuggestions be _ (strict_args query)) as [e2 | strict];
  cbn [reply_of] in *; try discriminate;
  rewrite Hs, Hl; cbv beta iota; run_push_step; split; reflexivity.
Qed.

Lemma dual_search_loose query be w :
  _classify_intent query = "address" ->
  usable (reply_of (strict_outcome be w query)) = false ->
  usable (reply_of (loose_outcome be w query)) = true ->
  let suggestions := get (sr_suggestions (reply_of (loose_outcome be w query))) [] in
  fst (search_address query be w)
  = inr (loose_suggestions_reply (List.length suggestions))
  /\ session (snd (search_address query be w))
     = set_last_suggestions suggestions
         (set_last_query (Some query) (selection_cleared (session w))).
Proof.
  intros Hc Hs Hl. unfold search_address. rewrite Hc.
  change (String.eqb "address" "address") with true. cbv iota.
  unfold strict_outcome, loose_outcome, lookup_event, usable in *. destruct w as [s t].
  cbn [session trace] in *.
  run_tool.
  destruct (getPlaceSuggestions be t (loose_args query)) as [e1 | loose];
  destruct (getPlaceSuggestions be _ (strict_args query)) as [e2 | strict];
  cbn [reply_of] in *; try discriminate.
  - destruct (truthy (sr_success (value_of loose))); [|discriminate].
    destruct (sr_suggestions (value_of loose)) as [[|c l]|]; try discriminate.
    cbn [truthy sr_success sr_suggestions empty_reply]. cbv beta iota.
    run_push_step. split; reflexivity.
  - destruct (truthy (sr_success (value_of loose))); [|discriminate].
    destruct (sr_suggestions (value_of loose)) as [[|c l]|]; try discriminate.
    destruct (truthy (sr_success (value_of strict)));
      [destruct (sr_suggestions (value_of strict)) as [[|c' l']|]; try discriminate|];
      cbv beta iota; run_push_step; split; reflexivity.
Qed.

Lemma dual_search_failed query be w :
  _classify_intent query = "address" ->
  usable (reply_of (strict_outcome be w query)) = false ->
  usable (reply_of (loose_outcome be w query)) = false ->
  fst (search_address query be w) = inr validation_failed_reply
  /\ session (snd (search_address query be w)) = selection_cleared (session w)
  /\ notifications (trace (snd (search_address query be w))) = notifications (trace w).
Proof.
  intros Hc Hs Hl. unfold search_address. rewrite Hc.
  change (String.eqb "address" "address") with true. cbv iota.
  unfold strict_outcome, loose_outcome, lookup_event, usable in *. destruct w as [s t].
  cbn [session trace] in *.
  run_tool.
  assert (Hn : forall a b s1 s2,
             notifications ((t ++ [EvAction getPlaceSuggestions_path a s1]) ++
                            [EvAction getPlaceSuggestions_path b s2]) = notifications t).
  { intros. unfold notifications. rewrite !filter_app. cbn. now rewrite !app_nil_r. }
  destruct (getPlaceSuggestions be t (loose_args query)) as [e1 | loose];
  destruct (getPlaceSuggestions be _ (strict_args query)) as [e2 | strict];
  cbn [reply_of] in *.
  all: repeat match goal with
       | H : context [truthy ?x] |- _ => destruct (truthy x)
       | H : context [sr_suggestions ?x] |- _ =>
           destruct (sr_suggestions x) as [[|? ?]|]
       end; try discriminate; cbn [fst snd session trace];
       (split; [reflexivity | split; [reflexivity | apply Hn]]).
Qed.

Lemma not_address_eqb query :
  _classify_intent query <> "address" ->
  String.eqb (_classify_intent query) "address" = false.
Proof. intros H. now apply String.eqb_neq. Qed.

Lemma single_search_failed query be w :
  _classify_intent query <> "address" ->
  lookup_failed (single_outcome be w query) ->
  search_address query be w
  = (inr (error_reply (lookup_error (single_outcome be w query))),
     mkWorld (selection_cleared (session w))
       (trace w ++ [lookup_event (single_args query (_classify_intent query))
                      (selection_cleared (session w))])).
Proof.
  intros Hc Hf. unfold search_address. rewrite (not_address_eqb query Hc).
  unfold single_outcome, lookup_failed, lookup_error in *.
  destruct w as [s t]. cbn [session trace] in *. run_tool.
  destruct (getPlaceSuggestions be t _) as [e | body]; [reflexivity|].
  rewrite Hf. reflexivity.
Qed.

Lemma single_search_succeeded query be w body :
  _classify_intent query <> "address" ->
  single_outcome be w query = inr body ->
  truthy (sr_success (value_of body)) = true ->
  let intent := _classify_intent query in
  let suggestions := get (sr_suggestions (value_of body)) [] in
  let stored :=
    set_last_suggestions suggestions
      (set_last_query (Some query) (selection_cleared (session w))) in
  search_address query be w
  = (inr match suggestions with
         | [] => no_results_reply query
         | _ => suggestions_reply (List.length suggestions)
         end,
     mkWorld stored
       (trace w
        ++ [lookup_event (single_args query intent) (selection_cleared (session w))]
        ++ [push_event "suggestions"
              (suggestions_data query (get (sr_detectedIntent (value_of body)) intent)
                 suggestions)
              stored])).
Proof.
  intros Hc Ho Hs. unfold search_address. rewrite (not_address_eqb query Hc).
  unfold single_outcome in Ho.
  destruct w as [s t]. cbn [session trace] in *. run_tool.
  rewrite Ho, Hs. cbn [negb]. cbv beta iota. run_push_step.
  rewrite <- app_assoc.
  destruct (get (sr_suggestions (value_of body)) []); reflexivity.
Qed.

(** ** Selection *)

Lemma select_suggestion_not_found place_id be w :
  find (has_place_id place_id) (last_suggestions (session w)) = None ->
  select_suggestion place_id be w = (inr (not_found_reply place_id), w).
Proof.
  intros H. unfold select_suggestion. run_tool. rewrite H. reflexivity.
Qed.

Lemma enriched_copy_run place_id suggestion be w :
  exists chosen,
    drawn_from suggestion chosen
    /\ enriched_copy place_id suggestion be w
       = (inr chosen,
          mkWorld (session w) (trace w ++ [details_event place_id (session w)])).
Proof.
  unfold enriched_copy, details_event. run_tool.
  destruct (getPlaceDetails be (trace w) _) as [e | body].
  - exists suggestion. split; [now left | reflexivity].
  - destruct (truthy (dr_success (value_of body)));
      [destruct (dr_details (value_of body)) as [d|];
       [destruct (details_nonempty d)|]|].
    + exists (enrich suggestion d). split; [right; now exists d | reflexivity].
    + exists suggestion. split; [now left | reflexivity].
    + exists suggestion. split; [now left | reflexivity].
    + exists suggestion. split; [now left | reflexivity].
Qed.

Lemma select_suggestion_found place_id suggestion be w :
  find (has_place_id place_id) (last_suggestions (session w)) = Some suggestion ->
  exists chosen,
    drawn_from suggestion chosen
    /\ select_suggestion place_id be w
       = (inr confirmed_reply,
          mkWorld (set_current_selection (Some chosen) (session w))
            (trace w
             ++ [details_event place_id (session w)]
             ++ [push_event "selection"
                   (JDict [ ("suggestion", _format_suggestion chosen) ])
                   (set_current_selection (Some chosen) (session w))])).
Proof.
  intros H. destruct (enriched_copy_run place_id suggestion be w) as [chosen [Hd Hr]].
  exists chosen. split; [exact Hd|].
  unfold select_suggestion.
  cbv beta iota zeta delta [bind read_state]. rewrite H, Hr.
  cbv beta iota zeta delta [write_state]. cbn [session trace].
  run_push_step. rewrite <- app_assoc. reflexivity.
Qed.

(** Selecting by identifier never touches the acknowledgement flag. *)
Lemma select_suggestion_keeps_acknowledged place_id be w :
  selection_acknowledged (session (snd (select_suggestion place_id be w)))
  = selection_acknowledged (session w).
Proof.
  destruct (find (has_place_id place_id) (last_suggestions (session w))) as [s|] eqn:E.
  - destruct (select_suggestion_found place_id s be w E) as [chosen [_ ->]]. reflexivity.
  - now rewrite (select_suggestion_not_found place_id be w E).
Qed.

Lemma ordinal_map_table key i :
  lookup key ordinal_map = Some i
  <-> i < 5
      /\ (nth_error ordinal_words i = Some key
          \/ key = PyStr.str_of_nat (S i)
          \/ nth_error ordinal_suffixed i = Some key).
Proof.
  split.
  - unfold ordinal_map. cbn [lookup].
    repeat match goal with
           | |- context [String.eqb ?k key] =>
               destruct (String.eqb_spec k key) as [<- | _]
           end; intros H; try discriminate; injection H as <-;
      (split; [lia|]);
      first [ left; reflexivity | right; left; reflexivity | right; right; reflexivity ].
  - intros [Hi H].
    do 5 (destruct i as [|i]; [destruct H as [H | [H | H]];
                               [injection H as <- | subst key | injection H as <-];
                               reflexivity|]).
    lia.
Qed.

Lemma find_first_occurrence {A} (p : A -> bool) (l : list A) i x :
  nth_error l i = Some x ->
  p x = true ->
  (forall j y, j < i -> nth_error l j = Some y -> p y = false) ->
  find p l = Some x.
Proof.
  revert i. induction l as [|a l IH]; intros [|i] Hn Hp Hfirst;
    cbn in Hn; try discriminate.
  - injection Hn as ->. cbn. now rewrite Hp.
  - cbn. rewrite (Hfirst 0 a); [|lia|reflexivity].
    apply (IH i Hn Hp). intros j y Hj Hy. apply (Hfirst (S j) y); [lia | exact Hy].
Qed.

Lemma find_some_occurrence {A} (p : A -> bool) (l : list A) i x :
  nth_error l i = Some x -> p x = true ->
  exists y, find p l = Some y /\ p y = true.
Proof.
  revert i. induction l as [|a l IH]; intros [|i] Hn Hp; cbn in Hn; try discriminate.
  - injection Hn as ->. exists x. cbn. now rewrite Hp.
  - cbn. destruct (p a) eqn:Ea; [now exists a | now apply (IH i)].
Qed.

Lemma has_place_id_own place_id selected :
  sg_placeId selected = Some place_id -> has_place_id place_id selected = true.
Proof. intros H. unfold has_place_id. rewrite H. apply String.eqb_refl. Qed.

Lemma has_place_id_true place_id s :
  has_place_id place_id s = true -> sg_placeId s = Some place_id.
Proof.
  unfold has_place_id. destruct (sg_placeId s) as [p|]; [|discriminate].
  intros H. apply String.eqb_eq in H. now subst.
Qed.

Lemma drawn_from_place_id suggestion chosen :
  drawn_from suggestion chosen -> sg_placeId chosen = sg_placeId suggestion.
Proof. intros [-> | [d ->]]; reflexivity. Qed.

Section SelectByOrdinal.

Variables (ordinal : string) (be : Backend) (w : World).

Lemma select_by_ordinal_unrecognized :
  lookup (ordinal_key ordinal) ordinal_map = None ->
  select_by_ordinal ordinal be w
  = (inr (error_reply ("Didn't understand '" ++ ordinal
                       ++ "'. Please say first, second, third, etc.")), w).
Proof.
  intros H. unfold select_by_ordinal. fold (ordinal_key ordinal). now rewrite H.
Qed.

Lemma select_by_ordinal_no_results i :
  lookup (ordinal_key ordinal) ordinal_map = Some i ->
  last_suggestions (session w) = [] ->
  select_by_ordinal ordinal be w
  = (inr (error_reply
            "No search results to select from. Please search for an address first."), w).
Proof.
  intros H He. unfold select_by_ordinal. fold (ordinal_key ordinal). rewrite H.
  run_tool. now rewrite He.
Qed.

Lemma select_by_ordinal_out_of_range i :
  lookup (ordinal_key ordinal) ordinal_map = Some i ->
  0 < List.length (last_suggestions (session w)) ->
  List.length (last_suggestions (session w)) <= i ->
  select_by_ordinal ordinal be w
  = (inr (error_reply
            ("Only " ++ PyStr.str_of_nat (List.length (last_suggestions (session w)))
             ++ " results available. Choose 1 to "
             ++ PyStr.str_of_nat (List.length (last_suggestions (session w))) ++ ".")),
     w).
Proof.
  intros H Hpos Hle. unfold select_by_ordinal. fold (ordinal_key ordinal). rewrite H.
  run_tool. destruct (last_suggestions (session w)) as [|c l] eqn:E; [cbn in Hpos; lia|].
  apply Nat.leb_le in Hle. now rewrite Hle.
Qed.

Lemma select_by_ordinal_in_range i selected :
  lookup (ordinal_key ordinal) ordinal_map = Some i ->
  nth_error (last_suggestions (session w)) i = Some selected ->
  select_by_ordinal ordinal be w
  = if String.eqb (get (sg_placeId selected) "") ""
    then (inr (error_reply
                 "That suggestion doesn't have a valid place ID. Try another."), w)
    else (inl not_callable, w).
Proof.
  intros H Hn. unfold select_by_ordinal. fold (ordinal_key ordinal). rewrite H.
  run_tool.
  assert (Hlt : i < List.length (last_suggestions (session w))).
  { apply nth_error_Some. rewrite Hn. discriminate. }
  destruct (last_suggestions (session w)) as [|c l] eqn:E; [cbn in Hlt; lia|].
  apply Nat.leb_gt in Hlt. rewrite Hlt, Hn.
  destruct (String.eqb _ _); reflexivity.
Qed.

End SelectByOrdinal.

(** What select-by-ordinal does once it has resolved a candidate with a
    place id: the call of the rebound name raises, and nothing is
    selected. *)
Lemma select_by_ordinal_delegation ordinal be w i selected place_id :
  lookup (ordinal_key ordinal) ordinal_map = Some i ->
  nth_error (last_suggestions (session w)) i = Some selected ->
  sg_placeId selected = Some place_id ->
  place_id <> "" ->
  select_by_ordinal ordinal be w = (inl not_callable, w).
Proof.
  intros Hk Hn Hid Hne.
  rewrite (select_by_ordinal_in_range ordinal be w i selected Hk Hn), Hid.
  cbn [get]. apply String.eqb_neq in Hne. now rewrite Hne.
Qed.

(** C3, at the input where the code departs from it.  On a list of three
    candidates with place ids, the ordinal second is found in the table
    and resolves to the candidate at index 1, and the call that should
    hand over to select-by-identifier raises [TypeError]: no reply is
    returned, no request is sent and no selection is stored.  The two
    other sample calls of the specification answer as it says: second on
    a list of one gives the error stating the count, tenth gives the error
    quoting the input. *)
Theorem select_by_ordinal_delegation_raises :
  let w := start three_candidates in
  lookup (ordinal_key "second") ordinal_map = Some 1
  /\ nth_error (last_suggestions (session w)) 1 = Some place2
  /\ sg_placeId place2 = Some "p2"
  /\ select_by_ordinal "second" offline w = (inl not_callable, w)
  /\ current_selection (session (snd (select_by_ordinal "second" offline w))) = None
  /\ fst (select_suggestion "p2" offline w) = inr confirmed_reply
  /\ fst (select_by_ordinal "second" offline (start one_candidate))
     = inr (error_reply "Only 1 results available. Choose 1 to 1.")
  /\ fst (select_by_ordinal "tenth" offline (start three_candidates))
     = inr (error_reply "Didn't understand 'tenth'. Please say first, second, third, etc.").
Proof. repeat split; reflexivity. Qed.

(** ** The dual search *)

(** Where a validated search takes its candidate list from: the loose
    list whenever the loose lookup reports success, the validated result
    alone otherwise. *)
Lemma validated_search_candidates query be w validated more :
  _classify_intent query = "address" ->
  truthy (sr_success (reply_of (strict_outcome be w query))) = true ->
  sr_suggestions (reply_of (strict_outcome be w query)) = Some (validated :: more) ->
  reply_status (fst (search_address query be w)) = Some "validated"
  /\ (usable (reply_of (loose_outcome be w query)) = true ->
      last_suggestions (session (snd (search_address query be w)))
      = get (sr_suggestions (reply_of (loose_outcome be w query))) [])
  /\ (truthy (sr_success (reply_of (loose_outcome be w query))) = false ->
      last_suggestions (session (snd (search_address query be w))) = [validated]).
Proof.
  intros Hc Hs Hl.
  destruct (dual_search_validated query be w validated more Hc Hs Hl) as [Hr Hw].
  rewrite Hr, Hw. split; [reflexivity|]. unfold usable. split; intros H.
  - destruct (truthy (sr_success (reply_of (loose_outcome be w query))));
      [reflexivity | discriminate].
  - now rewrite H.
Qed.

(** Strict success with one result and loose success with three: three
    candidates are stored and the status is validated. *)
Lemma validated_search_three_candidates :
  let r := search_address "123 Smith Street"
             (dual_backend (found [place1; place2; place3]) (found [place1])) fresh in
  reply_status (fst r) = Some "validated"
  /\ List.length (last_suggestions (session (snd r))) = 3.
Proof. split; reflexivity. Qed.

(** C1, at the input where the code departs from it.  The strict lookup
    succeeds with one suggestion and the loose lookup succeeds with an
    empty list: the search answers validated, and the stored candidate
    list is the empty loose list, not the singleton of the strict
    result. *)
Theorem validated_search_with_empty_loose_list :
  let be := dual_backend (found []) (found [place1]) in
  let r := search_address "123 Smith Street" be fresh in
  _classify_intent "123 Smith Street" = "address"
  /\ usable (reply_of (strict_outcome be fresh "123 Smith Street")) = true
  /\ sr_suggestions (reply_of (strict_outcome be fresh "123 Smith Street")) = Some [place1]
  /\ truthy (sr_success (reply_of (loose_outcome be fresh "123 Smith Street"))) = true
  /\ sr_suggestions (reply_of (loose_outcome be fresh "123 Smith Street")) = Some []
  /\ reply_status (fst r) = Some "validated"
  /\ last_suggestions (session (snd r)) = []
  /\ last_suggestions (session (snd r)) <> [place1].
Proof. repeat split; try reflexivity. discriminate. Qed.

(** X25.  The frame of a failed validation: an address-intent search
    answers validation_failed only when neither lookup is usable, and it
    then leaves the last query, the candidate list and the session id as
    they were and only clears the selection and the acknowledgement
    flag. *)
Theorem failed_validation_frame query be w :
  _classify_intent query = "address" ->
  reply_status (fst (search_address query be w)) = Some "validation_failed" ->
  let w' := snd (search_address query be w) in
  (usable (reply_of (strict_outcome be w query)) = false
   /\ usable (reply_of (loose_outcome be w query)) = false)
  /\ last_query (session w') = last_query (session w)
  /\ last_suggestions (session w') = last_suggestions (session w)
  /\ session_id (session w') = session_id (session w)
  /\ current_selection (session w') = None
  /\ selection_acknowledged (session w') = false.
Proof.
  intros Hc Hst w'.
  assert (Hu : usable (reply_of (strict_outcome be w query)) = false
               /\ usable (reply_of (loose_outcome be w query)) = false).
  { destruct (usable (reply_of (strict_outcome be w query))) eqn:Es.
    - exfalso. unfold usable in Es. apply andb_prop in Es as [Et Ev].
      destruct (sr_suggestions (reply_of (strict_outcome be w query)))
        as [[|validated more]|] eqn:El; try discriminate.
      destruct (dual_search_validated query be w validated more Hc Et El) as [Hr _].
      rewrite Hr in Hst. discriminate.
    - destruct (usable (reply_of (loose_outcome be w query))) eqn:El; [|now split].
      exfalso. destruct (dual_search_loose query be w Hc Es El) as [Hr _].
      rewrite Hr in Hst. discriminate. }
  split; [exact Hu|]. destruct Hu as [Hs Hl].
  destruct (dual_search_failed query be w Hc Hs Hl) as [_ [Hw _]].
  subst w'. rewrite Hw. repeat split.
Qed.

Lemma failed_validation_frame_witness :
  let be := dual_backend refused timed_out in
  let w := start selected_and_acknowledged in
  let w' := snd (search_address "99 Nowhere Road" be w) in
  reply_status (fst (search_address "99 Nowhere Road" be w)) = Some "validation_failed"
  /\ last_query (session w') = Some "1 smith street"
  /\ last_suggestions (session w') = [place1; place2; place3]
  /\ current_selection (session w') = None
  /\ selection_acknowledged (session w') = false.
Proof.
  intros be w w'.
  pose proof (failed_validation_frame "99 Nowhere Road" be w eq_refl eq_refl) as H.
  cbv zeta in H. destruct H as (_ & Hq & Hl & _ & Hs & Ha).
  split; [reflexivity|]. split; [exact Hq|]. split; [exact Hl|].
  split; [exact Hs | exact Ha].
Defined.

(** C10, at the input where the code departs from it.  A search stores
    three candidates; a second search, of address intent, answers
    validation_failed and, as the claim says, leaves the last query and
    the candidates as they were and clears the selection and the flag.
    The stored candidates are still selected by identifier, but the
    ordinal second, which resolves to the second of them, raises
    [TypeError] at the call that should hand over to
    select-by-identifier, and nothing is selected. *)
Theorem ordinal_after_failed_validation_raises :
  let w := snd (search_address "1 Smith Street"
                  (dual_backend (found [place1; place2; place3]) (found [place1]))
                  fresh) in
  let be := dual_backend refused timed_out in
  let w' := snd (search_address "99 Nowhere Road" be w) in
  last_suggestions (session w) = [place1; place2; place3]
  /\ _classify_intent "99 Nowhere Road" = "address"
  /\ reply_status (fst (search_address "99 Nowhere Road" be w)) = Some "validation_failed"
  /\ last_query (session w') = last_query (session w)
  /\ last_suggestions (session w') = last_suggestions (session w)
  /\ current_selection (session w') = None
  /\ selection_acknowledged (session w') = false
  /\ nth_error (last_suggestions (session w')) 1 = Some place2
  /\ select_by_ordinal "second" offline w' = (inl not_callable, w')
  /\ fst (select_suggestion "p2" offline w') = inr confirmed_reply.
Proof. repeat split; reflexivity. Qed.

(** ** The single lookup of the other intents *)

(** The claim C6 as stated fails: with a selection on file, a failed
    lookup of a suburb query answers error and the session state is not
    the state before the call. *)
Lemma failed_lookup_changes_state :
  let be := single_backend timed_out in
  let w := start selected_and_acknowledged in
  let r := search_address "Richmond" be w in
  _classify_intent "Richmond" <> "address"
  /\ lookup_failed (single_outcome be w "Richmond")
  /\ reply_status (fst r) = Some "error"
  /\ session (snd r) <> session w.
Proof.
  repeat split; try exact I; intros H; vm_compute in H; discriminate H.
Qed.

(** C6, amended.  When the single lookup of a query that is not of
    address intent fails (the call raises, or the reply does not report
    success), the search answers error, sends no notification, and leaves
    the last query, the candidate list and the session id as they were;
    the selection is cleared and the acknowledgement flag is down. *)
Theorem failed_lookup_only_clears_selection query be w :
  _classify_intent query <> "address" ->
  lookup_failed (single_outcome be w query) ->
  let w' := snd (search_address query be w) in
  fst (search_address query be w)
  = inr (error_reply (lookup_error (single_outcome be w query)))
  /\ last_query (session w') = last_query (session w)
  /\ last_suggestions (session w') = last_suggestions (session w)
  /\ session_id (session w') = session_id (session w)
  /\ current_selection (session w') = None
  /\ selection_acknowledged (session w') = false
  /\ notifications (trace w') = notifications (trace w).
Proof.
  intros Hc Hf w'. subst w'. rewrite (single_search_failed query be w Hc Hf).
  cbn [fst snd session trace]. repeat split.
  unfold notifications. rewrite filter_app. cbn. apply app_nil_r.
Qed.

Lemma failed_lookup_only_clears_selection_witness :
  let be := single_backend refused in
  let w := start selected_and_acknowledged in
  let w' := snd (search_address "Richmond" be w) in
  _classify_intent "Richmond" <> "address"
  /\ lookup_failed (single_outcome be w "Richmond")
  /\ fst (search_address "Richmond" be w) = inr (error_reply "quota exceeded")
  /\ last_suggestions (session w') = [place1; place2; place3]
  /\ current_selection (session w') = None.
Proof.
  intros be w w'.
  assert (Hc : _classify_intent "Richmond" <> "address")
    by (intros H; vm_compute in H; discriminate H).
  assert (Hf : lookup_failed (single_outcome be w "Richmond")) by reflexivity.
  pose proof (failed_lookup_only_clears_selection "Richmond" be w Hc Hf) as H.
  cbv zeta in H. destruct H as (Hr & _ & Hl & _ & Hs & _).
  repeat split; assumption.
Defined.

(** The claim C7 as stated fails: a suburb lookup that succeeds with no
    suggestion answers no_results and a notification has been pushed. *)
Lemma empty_result_is_notified :
  let be := single_backend (found []) in
  let r := search_address "Richmond" be fresh in
  _classify_intent "Richmond" <> "address"
  /\ single_outcome be fresh "Richmond" = found []
  /\ reply_status (fst r) = Some "no_results"
  /\ notifications (trace fresh) = []
  /\ map update_type (notifications (trace (snd r))) = [Some "suggestions"].
Proof.
  repeat split; try reflexivity. intros H; vm_compute in H; discriminate H.
Qed.

(** C7, amended.  When the lookup of a query that is not of address
    intent succeeds with no suggestion, the search stores the query and the
    empty candidate list, pushes one suggestions notification carrying the
    empty list, and answers no_results. *)
Theorem empty_result_is_stored_and_pushed query be w body :
  _classify_intent query <> "address" ->
  single_outcome be w query = inr body ->
  truthy (sr_success (value_of body)) = true ->
  get (sr_suggestions (value_of body)) [] = [] ->
  let w' := snd (search_address query be w) in
  fst (search_address query be w) = inr (no_results_reply query)
  /\ last_query (session w') = Some query
  /\ last_suggestions (session w') = []
  /\ notifications (trace w')
     = notifications (trace w)
       ++ [push_event "suggestions"
             (suggestions_data query
                (get (sr_detectedIntent (value_of body)) (_classify_intent query)) [])
             (session w')].
Proof.
  intros Hc Ho Hs He w'. subst w'.
  rewrite (single_search_succeeded query be w body Hc Ho Hs), He.
  cbn [fst snd session trace]. repeat split.
  unfold notifications. rewrite filter_app. cbn. reflexivity.
Qed.

Lemma empty_result_is_stored_and_pushed_witness :
  let be := single_backend (found []) in
  let w' := snd (search_address "Richmond" be fresh) in
  fst (search_address "Richmond" be fresh) = inr (no_results_reply "Richmond")
  /\ last_query (session w') = Some "Richmond"
  /\ List.length (notifications (trace w')) = 1.
Proof.
  intros be w'.
  assert (Hc : _classify_intent "Richmond" <> "address")
    by (intros H; vm_compute in H; discriminate H).
  pose proof (empty_result_is_stored_and_pushed "Richmond" be fresh
                (Wrapped (mkSuggestionsReply (Some true) (Some []) None None))
                Hc eq_refl eq_refl eq_refl) as H.
  cbv zeta in H. destruct H as (Hr & Hq & _ & Hn).
  split; [exact Hr|]. split; [exact Hq|].
  fold w' in Hn. rewrite Hn. reflexivity.
Defined.

(** The two tools that only read. *)
Lemma read_only_tools be w :
  snd (get_current_state be w) = w /\ snd (confirm_user_selection be w) = w.
Proof.
  split; [reflexivity|].
  unfold confirm_user_selection. run_tool.
  destruct (current_selection (session w)); reflexivity.
Qed.

(** ** The acknowledgement flag *)

(** The tools that clear the selection put the flag down with it. *)
Lemma clearing_tools_reset_acknowledged be w :
  cleared (session (snd (clear_selection be w)))
  /\ (reply_status (fst (show_options_again be w)) = Some "options_displayed" ->
      cleared (session (snd (show_options_again be w)))).
Proof.
  split.
  - unfold clear_selection, _reset_state. run_tool. run_push_step. split; reflexivity.
  - unfold show_options_again. run_tool.
    destruct (last_suggestions (session w)) as [|c l]; [discriminate|].
    destruct (last_query (session w)) as [[|a q]|]; try discriminate.
    intros _. run_push_step. split; reflexivity.
Qed.

(** C5, at the input where the code departs from it.  The first
    candidate is selected, the flag is raised through the set-acknowledged
    tool, and the second candidate is then selected by identifier: the
    selection is replaced and the flag is still up. *)
Theorem reselection_keeps_acknowledged_flag :
  let w1 := snd (select_suggestion "p1" offline (start three_candidates)) in
  let w2 := snd (set_selection_acknowledged "true" offline w1) in
  let w3 := snd (select_suggestion "p2" offline w2) in
  current_selection (session w2) = Some place1
  /\ selection_acknowledged (session w2) = true
  /\ fst (select_suggestion "p2" offline w2) = inr confirmed_reply
  /\ current_selection (session w3) = Some place2
  /\ selection_acknowledged (session w3) = true.
Proof. repeat split; reflexivity. Qed.

(** The claim C9 as stated fails twice: the notification is pushed under
    the update type selection_acknowledged, not acknowledged; and an input
    that is one of the three words only after its surrounding blanks are
    removed raises the flag too. *)
Lemma set_acknowledged_departs_from_claim :
  let w1 := snd (set_selection_acknowledged "true" offline fresh) in
  let w2 := snd (set_selection_acknowledged " Yes " offline fresh) in
  map update_type (notifications (trace w1)) = [Some "selection_acknowledged"]
  /\ map update_type (notifications (trace w1)) <> [Some "acknowledged"]
  /\ ~ In (PyStr.lower " Yes ") ["true"; "1"; "yes"]
  /\ selection_acknowledged (session w2) = true.
Proof.
  repeat split; try reflexivity.
  - intros H; vm_compute in H; discriminate H.
  - intros [H | [H | [H | []]]]; vm_compute in H; discriminate H.
Qed.

(** C9, amended.  For every input and whatever the selection, the
    set-acknowledged tool raises the flag exactly when the input, lowered
    and stripped of surrounding whitespace, is true, 1 or yes, and puts it
    down otherwise; it answers ok and pushes one notification whose update
    type is selection_acknowledged. *)
Theorem set_acknowledged_from_token acknowledged be w :
  let token := PyStr.strip (PyStr.lower acknowledged) in
  let is_ack := PyStr.mem token ["true"; "1"; "yes"] in
  let stored := set_selection_acknowledged_field is_ack (session w) in
  let pushed :=
    push_event "selection_acknowledged" (JDict [ ("acknowledged", JBool is_ack) ]) stored in
  (is_ack = true <-> token = "true" \/ token = "1" \/ token = "yes")
  /\ set_selection_acknowledged acknowledged be w
     = (inr (JDict [ ("status", JStr "ok"); ("selection_acknowledged", JBool is_ack) ]),
        mkWorld stored (trace w ++ [pushed]))
  /\ selection_acknowledged stored = is_ack
  /\ update_type pushed = Some "selection_acknowledged".
Proof.
  intros token is_ack stored pushed. split; [|split; [|split; reflexivity]].
  - subst is_ack. unfold PyStr.mem. cbn [existsb]. rewrite !orb_true_iff, !String.eqb_eq.
    intuition congruence.
  - unfold set_selection_acknowledged. run_tool. run_push_step. reflexivity.
Qed.

(** * Further properties of the tools *)

(** ** The classifier *)

Lemma classify_as_spec query : _classify_intent query = classify_spec query.
Proof.
  unfold _classify_intent, classify_spec, tokens.
  rewrite PyStrFacts.split_normalised, PyStrFacts.any_isdigit_normalised.
  destruct (first_word_starts_with_digit _); [reflexivity|].
  destruct (existsb _ _); [reflexivity|].
  destruct (PyStr.split query) as [|t [|t' [|t'' rest]]] eqn:E;
    cbn [map List.length Nat.eqb andb]; try reflexivity.
  - rewrite (PyStrFacts.split_single_strip query t E). reflexivity.
  - now destruct (PyStr.any PyStr.isdigit query).
Qed.

Lemma any_split (p : ascii -> bool) s :
  (forall c, PyStr.isspace c = true -> p c = false) ->
  PyStr.any p s = existsb (PyStr.any p) (PyStr.split s).
Proof.
  intros Hp. induction s as [|c s IH]; [reflexivity|].
  cbn [PyStr.any PyStr.split]. destruct (PyStr.isspace c) eqn:Ec.
  - now rewrite (Hp c Ec).
  - destruct (PyStr.starts_word s) eqn:Es.
    + pose proof (PyStrFacts.starts_word_split s Es) as Hne.
      destruct (PyStr.split s) as [|w r]; [contradiction|].
      cbn [PyStr.cons_head existsb PyStr.any] in *. rewrite IH. now rewrite orb_assoc.
    + cbn [existsb PyStr.any]. now rewrite IH, orb_false_r.
Qed.

Lemma existsb_isdigit_lower ws :
  existsb (PyStr.any PyStr.isdigit) (map PyStr.lower ws)
  = existsb (PyStr.any PyStr.isdigit) ws.
Proof.
  induction ws as [|w ws IH]; [reflexivity|].
  cbn [map existsb]. now rewrite PyStrFacts.any_isdigit_lower, IH.
Qed.

Lemma digits_of_tokens query :
  PyStr.any PyStr.isdigit query = existsb (PyStr.any PyStr.isdigit) (tokens query).
Proof.
  unfold tokens. rewrite existsb_isdigit_lower.
  apply any_split. exact PyStrFacts.space_not_digit.
Qed.

(** X1.  The class of a query depends only on its tokens, compared
    without regard to case: two queries with the same case-folded tokens
    are classified alike, so letter case and the amount of whitespace
    before, between and after the tokens never matter. *)
Theorem classify_depends_on_tokens query1 query2 :
  tokens query1 = tokens query2 ->
  _classify_intent query1 = _classify_intent query2.
Proof.
  intros H. rewrite !classify_as_spec. unfold classify_spec.
  rewrite (digits_of_tokens query1), (digits_of_tokens query2), H. reflexivity.
Qed.

Lemma classify_depends_on_tokens_witness :
  tokens "  12   SMITH st " = tokens "12 smith St"
  /\ _classify_intent "  12   SMITH st " = _classify_intent "12 smith St".
Proof.
  split; [reflexivity|].
  apply classify_depends_on_tokens. reflexivity.
Defined.

(** X2.  The classifier answers one of the four intents; it answers
    address exactly when the first token of the query starts with a
    decimal digit, and a query without any token (empty or all
    whitespace) is general. *)
Theorem classify_range query :
  In (_classify_intent query) ["address"; "street"; "suburb"; "general"]
  /\ (_classify_intent query = "address"
      <-> exists c w ws,
            PyStr.split query = String c w :: ws /\ PyStr.re_digit c = true)
  /\ (PyStr.split query = [] -> _classify_intent query = "general").
Proof.
  rewrite classify_as_spec. unfold classify_spec, tokens.
  assert (Hfirst : first_word_starts_with_digit (map PyStr.lower (PyStr.split query)) = true
                   <-> exists c w ws,
                         PyStr.split query = String c w :: ws /\ PyStr.re_digit c = true).
  { destruct (PyStr.split query) as [|[|c w] ws]; cbn [map PyStr.lower first_word_starts_with_digit].
    - split; [discriminate | intros (c & w & ws' & E & _); discriminate E].
    - split; [discriminate | intros (c & w & ws' & E & _); discriminate E].
    - rewrite PyStrFacts.re_digit_lower_char. split.
      + intros H. now exists c, w, ws.
      + intros (c' & w' & ws' & E & H). now injection E as -> _ _. }
  split; [|split].
  - destruct (first_word_starts_with_digit _); [cbn; tauto|].
    destruct (existsb _ _); [cbn; tauto|].
    destruct (map PyStr.lower (PyStr.split query)) as [|t [|t' [|t'' r]]];
      try (cbn; tauto).
    + destruct (3 <=? String.length t); cbn; tauto.
    + destruct (PyStr.any PyStr.isdigit query); cbn; tauto.
  - rewrite <- Hfirst.
    destruct (first_word_starts_with_digit _); [tauto|].
    split; [|discriminate]. intros H. exfalso.
    destruct (existsb _ _); [discriminate|].
    destruct (map PyStr.lower (PyStr.split query)) as [|t [|t' [|t'' r]]];
      try discriminate.
    + destruct (3 <=? String.length t); discriminate.
    + destruct (PyStr.any PyStr.isdigit query); discriminate.
  - intros E. rewrite E. reflexivity.
Qed.

Lemma classify_range_witness :
  PyStr.split "   " = [] /\ _classify_intent "   " = "general".
Proof.
  split; [reflexivity|].
  apply (proj2 (proj2 (classify_range "   "))). reflexivity.
Defined.

(** ** Complete runs of the search *)

Section DualRuns.

Variables (query : string) (be : Backend) (w : World).

Hypothesis address_intent : _classify_intent query = "address".

Let cleared_state := selection_cleared (session w).
Let looked_up :=
  trace w ++ [lookup_event (loose_args query) cleared_state;
              lookup_event (strict_args query) cleared_state].
Let strict_value := reply_of (strict_outcome be w query).
Let loose_value := reply_of (loose_outcome be w query).

Lemma dual_run_validated validated more :
  truthy (sr_success strict_value) = true ->
  sr_suggestions strict_value = Some (validated :: more) ->
  let all_suggestions :=
    if truthy (sr_success loose_value) then get (sr_suggestions loose_value) []
    else [validated] in
  let stored :=
    set_last_suggestions all_suggestions (set_last_query (Some query) cleared_state) in
  search_address query be w
  = (inr validated_reply,
     mkWorld stored
       (looked_up
        ++ [push_event "suggestions"
              (suggestions_data query (get (sr_detectedIntent strict_value) "address")
                 all_suggestions)
              stored])).
Proof.
  subst cleared_state looked_up strict_value loose_value.
  intros Hs Hl. unfold search_address. rewrite address_intent.
  change (String.eqb "address" "address") with true. cbv iota.
  unfold strict_outcome, loose_outcome, lookup_event in *. destruct w as [s t].
  cbn [session trace] in *.
  run_tool.
  destruct (getPlaceSuggestions be t (loose_args query)) as [e1 | loose];
  destruct (getPlaceSuggestions be _ (strict_args query)) as [e2 | strict];
  cbn [reply_of] in *; try discriminate;
  rewrite Hs, Hl; cbv beta iota; run_push_step;
  rewrite <- !app_assoc; reflexivity.
Qed.

Lemma dual_run_loose :
  usable strict_value = false ->
  usable loose_value = true ->
  let suggestions := get (sr_suggestions loose_value) [] in
  let stored :=
    set_last_suggestions suggestions (set_last_query (Some query) cleared_state) in
  search_address query be w
  = (inr (loose_suggestions_reply (List.length suggestions)),
     mkWorld stored
       (looked_up
        ++ [push_event "suggestions"
              (suggestions_data query (get (sr_detectedIntent loose_value) "address")
                 suggestions)
              stored])).
Proof.
  subst cleared_state looked_up strict_value loose_value.
  intros Hs Hl. unfold search_address. rewrite address_intent.
  change (String.eqb "address" "address") with true. cbv iota.
  unfold strict_outcome, loose_outcome, lookup_event, usable in *. destruct w as [s t].
  cbn [session trace] in *.
  run_tool.
  destruct (getPlaceSuggestions be t (loose_args query)) as [e1 | loose];
  destruct (getPlaceSuggestions be _ (strict_args query)) as [e2 | strict];
  cbn [reply_of] in *; try discriminate.
  - destruct (truthy (sr_success (value_of loose))); [|discriminate].
    destruct (sr_suggestions (value_of loose)) as [[|c l]|]; try discriminate.
    cbn [truthy sr_success sr_suggestions empty_reply]. cbv beta iota.
    run_push_step. rewrite <- !app_assoc. reflexivity.
  - destruct (truthy (sr_success (value_of loose))); [|discriminate].
    destruct (sr_suggestions (value_of loose)) as [[|c l]|]; try discriminate.
    destruct (truthy (sr_success (value_of strict)));
      [destruct (sr_suggestions (value_of strict)) as [[|c' l']|]; try discriminate|];
      cbv beta iota; run_push_step; rewrite <- !app_assoc; reflexivity.
Qed.

Lemma dual_run_failed :
  usable strict_value = false ->
  usable loose_value = false ->
  search_address query be w
  = (inr validation_failed_reply, mkWorld cleared_state looked_up).
Proof.
  subst cleared_state looked_up strict_value loose_value.
  intros Hs Hl. unfold search_address. rewrite address_intent.
  change (String.eqb "address" "address") with true. cbv iota.
  unfold strict_outcome, loose_outcome, lookup_event, usable in *. destruct w as [s t].
  cbn [session trace] in *.
  run_tool.
  destruct (getPlaceSuggestions be t (loose_args query)) as [e1 | loose];
  destruct (getPlaceSuggestions be _ (strict_args query)) as [e2 | strict];
  cbn [reply_of] in *.
  all: repeat match goal with
       | H : context [truthy ?x] |- _ => destruct (truthy x)
       | H : context [sr_suggestions ?x] |- _ =>
           destruct (sr_suggestions x) as [[|? ?]|]
       end; try discriminate; cbn [fst snd session trace];
       rewrite <- !app_assoc; reflexivity.
Qed.

End DualRuns.

Lemma usable_true r :
  usable r = true ->
  truthy (sr_success r) = true
  /\ exists first more, sr_suggestions r = Some (first :: more).
Proof.
  unfold usable. intros H. apply andb_prop in H as [Ht Hs]. split; [exact Ht|].
  destruct (sr_suggestions r) as [[|c l]|]; try discriminate. now exists c, l.
Qed.

Lemma notifications_app t1 t2 :
  notifications (t1 ++ t2) = notifications t1 ++ notifications t2.
Proof. apply filter_app. Qed.

Lemma requests_app t1 t2 : requests (t1 ++ t2) = requests t1 ++ requests t2.
Proof. apply filter_app. Qed.

(** Every run of a search is one of five: the three of the dual search
    and the two of the single lookup. *)
Ltac search_cases query be w :=
  destruct (String.eqb_spec (_classify_intent query) "address") as [Hc | Hc];
  [ destruct (usable (reply_of (strict_outcome be w query))) eqn:Hs;
    [ destruct (usable_true _ Hs) as [Ht [first [more Hl]]];
      rewrite (dual_run_validated query be w Hc first more Ht Hl)
    | destruct (usable (reply_of (loose_outcome be w query))) eqn:Hl;
      [ rewrite (dual_run_loose query be w Hc Hs Hl)
      | rewrite (dual_run_failed query be w Hc Hs Hl) ] ]
  | destruct (single_outcome be w query) as [e | body] eqn:Ho;
    [ rewrite (single_search_failed query be w Hc);
      [ rewrite Ho | rewrite Ho; exact I ]
    | destruct (truthy (sr_success (value_of body))) eqn:Ht;
      [ rewrite (single_search_succeeded query be w body Hc Ho Ht)
      | rewrite (single_search_failed query be w Hc);
        [ rewrite Ho | rewrite Ho; exact Ht ] ] ] ].

(** X3.  A search of address intent always sends exactly two lookups, the
    loose one first and the strict one second, whatever the first one
    brings; any other search sends exactly one, of at most five results in
    the classified mode.  All are sent after the selection is cleared, a
    search never asks for place details, and it pushes at most one
    notification, after the lookups. *)
Theorem search_sends_its_lookups query be w :
  let w' := snd (search_address query be w) in
  let at_state := selection_cleared (session w) in
  exists pushed,
    trace w'
    = trace w
      ++ (if String.eqb (_classify_intent query) "address"
          then [ lookup_event (loose_args query) at_state;
                 lookup_event (strict_args query) at_state ]
          else [ lookup_event (single_args query (_classify_intent query)) at_state ])
      ++ pushed
    /\ (pushed = []
        \/ exists data, pushed = [push_event "suggestions" data (session w')]).
Proof.
  intros w' at_state. subst w' at_state.
  search_cases query be w; cbn [fst snd session trace];
    try (rewrite Hc; change (String.eqb "address" "address") with true);
    try (rewrite (not_address_eqb query Hc)); cbv iota.
  - eexists. rewrite <- app_assoc. split; [reflexivity|]. right. eexists. reflexivity.
  - eexists. rewrite <- app_assoc. split; [reflexivity|]. right. eexists. reflexivity.
  - exists []. rewrite app_nil_r. split; [reflexivity | now left].
  - exists []. rewrite app_nil_r. split; [reflexivity | now left].
  - eexists. split; [reflexivity|]. right. eexists. reflexivity.
  - exists []. rewrite app_nil_r. split; [reflexivity | now left].
Qed.

(** X4.  A search keeps the screen in step with the session: either it
    stores nothing and pushes nothing (its status is then
    validation_failed or error), or it stores the query and a candidate
    list and pushes exactly one suggestions notification, which carries
    that query and the formatted list exactly as stored (its status is then
    validated, suggestions_available or no_results). *)
Theorem search_keeps_screen_in_step query be w :
  let outcome := fst (search_address query be w) in
  let w' := snd (search_address query be w) in
  (notifications (trace w') = notifications (trace w)
   /\ last_query (session w') = last_query (session w)
   /\ last_suggestions (session w') = last_suggestions (session w)
   /\ In (reply_status outcome) [Some "validation_failed"; Some "error"])
  \/ (exists intent,
        notifications (trace w')
        = notifications (trace w)
          ++ [push_event "suggestions"
                (suggestions_data query intent (last_suggestions (session w')))
                (session w')]
        /\ last_query (session w') = Some query
        /\ In (reply_status outcome)
             [Some "validated"; Some "suggestions_available"; Some "no_results"]).
Proof.
  intros outcome w'. subst outcome w'.
  search_cases query be w; cbn [fst snd session trace];
    rewrite ?notifications_app; cbn [notifications filter is_mutation lookup_event push_event app];
    rewrite ?app_nil_r.
  - right. eexists. split; [reflexivity|]. split; [reflexivity|]. cbn. tauto.
  - right. eexists. split; [reflexivity|]. split; [reflexivity|]. cbn. tauto.
  - left. repeat split. cbn. tauto.
  - left. repeat split. cbn. tauto.
  - right. eexists. split; [reflexivity|]. split; [reflexivity|].
    destruct (get (sr_suggestions (value_of body)) []); cbn; tauto.
  - left. repeat split. cbn. tauto.
Qed.

(** X5.  The loose fallback of the dual search: when the strict lookup
    is not usable and the loose lookup succeeds with at least one
    suggestion, the search stores the loose list with the query, answers
    suggestions_available, and the count it reports is the length of the
    stored list. *)
Theorem loose_fallback query be w :
  _classify_intent query = "address" ->
  usable (reply_of (strict_outcome be w query)) = false ->
  usable (reply_of (loose_outcome be w query)) = true ->
  let outcome := fst (search_address query be w) in
  let w' := snd (search_address query be w) in
  reply_status outcome = Some "suggestions_available"
  /\ last_query (session w') = Some query
  /\ last_suggestions (session w')
     = get (sr_suggestions (reply_of (loose_outcome be w query))) []
  /\ last_suggestions (session w') <> []
  /\ (exists reply,
        outcome = inr reply
        /\ field "count" reply = Some (jnat (List.length (last_suggestions (session w'))))).
Proof.
  intros Hc Hs Hl outcome w'. subst outcome w'.
  rewrite (dual_run_loose query be w Hc Hs Hl). cbn [fst snd session].
  split; [reflexivity|]. split; [reflexivity|]. split; [reflexivity|]. split.
  - cbn [set_last_suggestions last_suggestions].
    destruct (usable_true _ Hl) as [_ [c [l ->]]]. discriminate.
  - eexists. split; reflexivity.
Qed.

(** Strict lookup down, two loose suggestions. *)
Lemma loose_fallback_witness :
  let be := dual_backend (found [place1; place2]) timed_out in
  let w' := snd (search_address "123 Smith Street" be fresh) in
  reply_status (fst (search_address "123 Smith Street" be fresh))
  = Some "suggestions_available"
  /\ last_suggestions (session w') = [place1; place2].
Proof.
  intros be w'.
  pose proof (loose_fallback "123 Smith Street" be fresh eq_refl eq_refl eq_refl) as H.
  cbv zeta in H. destruct H as (Hr & _ & Hl & _).
  split; [exact Hr | exact Hl].
Defined.

(** X6.  A search that is not of address intent and whose lookup succeeds
    with at least one suggestion stores the query and the suggestions in
    backend order, answers suggestions_available with their number, and
    pushes one notification whose intent is the one the backend detected
    or, when the reply names none, the classified intent. *)
Theorem single_lookup_found query be w body first more :
  _classify_intent query <> "address" ->
  single_outcome be w query = inr body ->
  truthy (sr_success (value_of body)) = true ->
  sr_suggestions (value_of body) = Some (first :: more) ->
  let w' := snd (search_address query be w) in
  fst (search_address query be w) = inr (suggestions_reply (S (List.length more)))
  /\ last_query (session w') = Some query
  /\ last_suggestions (session w') = first :: more
  /\ notifications (trace w')
     = notifications (trace w)
       ++ [push_event "suggestions"
             (suggestions_data query
                (get (sr_detectedIntent (value_of body)) (_classify_intent query))
                (first :: more))
             (session w')].
Proof.
  intros Hc Ho Ht Hl w'. subst w'.
  rewrite (single_search_succeeded query be w body Hc Ho Ht), Hl.
  cbn [fst snd session trace get List.length].
  repeat split.
  rewrite !notifications_app. reflexivity.
Qed.

Lemma single_lookup_found_witness :
  let be := single_backend (found [place1; place2]) in
  let w' := snd (search_address "Richmond" be fresh) in
  fst (search_address "Richmond" be fresh) = inr (suggestions_reply 2)
  /\ last_suggestions (session w') = [place1; place2].
Proof.
  intros be w'.
  assert (Hc : _classify_intent "Richmond" <> "address")
    by (intros H; vm_compute in H; discriminate H).
  pose proof (single_lookup_found "Richmond" be fresh
                (Wrapped (mkSuggestionsReply (Some true) (Some [place1; place2]) None None))
                place1 [place2] Hc eq_refl eq_refl eq_refl) as H.
  cbv zeta in H. destruct H as (Hr & _ & Hl & _).
  split; [exact Hr | exact Hl].
Defined.

(** ** Complete runs of the selection tools *)

Lemma find_none_iff place_id l :
  find (has_place_id place_id) l = None
  <-> forall c, In c l -> sg_placeId c <> Some place_id.
Proof.
  split.
  - intros H c Hin Hid.
    pose proof (find_none _ _ H c Hin) as Hf.
    now rewrite (has_place_id_own _ _ Hid) in Hf.
  - intros H. destruct (find (has_place_id place_id) l) as [c|] eqn:E; [|reflexivity].
    exfalso. apply find_some in E as [Hin Hp].
    exact (H c Hin (has_place_id_true _ _ Hp)).
Qed.

(** Every run of select-by-ordinal is an error that leaves the world
    alone, or the raise of the call that should hand over to
    select-by-identifier, on a candidate with a place id. *)
Lemma select_by_ordinal_cases ordinal be w :
  (exists message, select_by_ordinal ordinal be w = (inr (error_reply message), w))
  \/ (exists i selected place_id,
        lookup (ordinal_key ordinal) ordinal_map = Some i
        /\ nth_error (last_suggestions (session w)) i = Some selected
        /\ sg_placeId selected = Some place_id
        /\ place_id <> ""
        /\ select_by_ordinal ordinal be w = (inl not_callable, w)).
Proof.
  destruct (lookup (ordinal_key ordinal) ordinal_map) as [i|] eqn:Hk.
  - destruct (nth_error (last_suggestions (session w)) i) as [selected|] eqn:Hn.
    + destruct (sg_placeId selected) as [p|] eqn:Hid.
      * destruct (String.eqb_spec p "") as [-> | Hne].
        -- left. eexists.
           rewrite (select_by_ordinal_in_range ordinal be w i selected Hk Hn), Hid.
           reflexivity.
        -- right. exists i, selected, p. repeat split; try assumption.
           exact (select_by_ordinal_delegation ordinal be w i selected p Hk Hn Hid Hne).
      * left. eexists.
        rewrite (select_by_ordinal_in_range ordinal be w i selected Hk Hn), Hid.
        reflexivity.
    + apply nth_error_None in Hn.
      destruct (last_suggestions (session w)) as [|c l] eqn:El.
      * left. eexists. apply (select_by_ordinal_no_results ordinal be w i Hk El).
      * left. eexists. apply (select_by_ordinal_out_of_range ordinal be w i Hk).
        -- rewrite El. cbn. lia.
        -- now rewrite El.
  - left. eexists. apply (select_by_ordinal_unrecognized ordinal be w Hk).
Qed.

(** X7.  Select-by-identifier answers not_found exactly when no stored
    candidate carries the identifier (in particular when nothing is
    stored); it then names the identifier in its error, sends no request,
    pushes nothing and leaves the session as it was. *)
Theorem select_unknown_identifier place_id be w :
  (reply_status (fst (select_suggestion place_id be w)) = Some "not_found"
   <-> forall c, In c (last_suggestions (session w)) -> sg_placeId c <> Some place_id)
  /\ ((forall c, In c (last_suggestions (session w)) -> sg_placeId c <> Some place_id) ->
      select_suggestion place_id be w = (inr (not_found_reply place_id), w)).
Proof.
  rewrite <- find_none_iff.
  destruct (find (has_place_id place_id) (last_suggestions (session w))) as [s|] eqn:E.
  - destruct (select_suggestion_found place_id s be w E) as [chosen [_ ->]].
    split; [split|]; discriminate.
  - rewrite (select_suggestion_not_found place_id be w E).
    split; [split; reflexivity | reflexivity].
Qed.

Lemma select_unknown_identifier_witness :
  select_suggestion "p9" offline (start three_candidates)
  = (inr (not_found_reply "p9"), start three_candidates).
Proof.
  apply (proj2 (select_unknown_identifier "p9" offline (start three_candidates))).
  intros c [<- | [<- | [<- | []]]] H; discriminate H.
Defined.

(** X8.  When a stored candidate carries the identifier,
    select-by-identifier answers confirmed, sends exactly one request (the
    place details of that identifier) and then pushes exactly one
    notification, of kind selection, carrying the formatted new selection.
    The selection carries the requested identifier; the last query, the
    candidate list (the details are merged onto a copy), the
    acknowledgement flag and the session id stay as they were. *)
Theorem select_known_identifier place_id candidate be w :
  In candidate (last_suggestions (session w)) ->
  sg_placeId candidate = Some place_id ->
  let w' := snd (select_suggestion place_id be w) in
  fst (select_suggestion place_id be w) = inr confirmed_reply
  /\ (exists chosen,
        current_selection (session w') = Some chosen
        /\ sg_placeId chosen = Some place_id
        /\ trace w'
           = trace w
             ++ [ details_event place_id (session w);
                  push_event "selection"
                    (JDict [ ("suggestion", _format_suggestion chosen) ])
                    (session w') ])
  /\ last_query (session w') = last_query (session w)
  /\ last_suggestions (session w') = last_suggestions (session w)
  /\ selection_acknowledged (session w') = selection_acknowledged (session w)
  /\ session_id (session w') = session_id (session w).
Proof.
  intros Hin Hid w'. subst w'.
  destruct (find (has_place_id place_id) (last_suggestions (session w))) as [s|] eqn:E.
  - destruct (select_suggestion_found place_id s be w E) as [chosen [Hd ->]].
    cbn [fst snd session trace]. split; [reflexivity|]. split; [|repeat split].
    exists chosen. split; [reflexivity|]. split; [|reflexivity].
    rewrite (drawn_from_place_id s chosen Hd).
    apply has_place_id_true. apply find_some in E. apply E.
  - exfalso. exact (proj1 (find_none_iff _ _) E candidate Hin Hid).
Qed.

Lemma select_known_identifier_witness :
  fst (select_suggestion "p3" offline (start three_candidates)) = inr confirmed_reply
  /\ last_suggestions (session (snd (select_suggestion "p3" offline (start three_candidates))))
     = [place1; place2; place3].
Proof.
  assert (Hin : In place3 (last_suggestions (session (start three_candidates))))
    by (right; right; left; reflexivity).
  pose proof (select_known_identifier "p3" place3 offline (start three_candidates)
                Hin eq_refl) as H.
  cbv zeta in H. destruct H as (Hr & _ & _ & Hl & _).
  split; [exact Hr | exact Hl].
Defined.

Lemma select_suggestion_plain place_id suggestion be w :
  find (has_place_id place_id) (last_suggestions (session w)) = Some suggestion ->
  details_unusable (details_outcome be w place_id) ->
  select_suggestion place_id be w
  = (inr confirmed_reply,
     mkWorld (set_current_selection (Some suggestion) (session w))
       (trace w
        ++ [details_event place_id (session w)]
        ++ [push_event "selection"
              (JDict [ ("suggestion", _format_suggestion suggestion) ])
              (set_current_selection (Some suggestion) (session w))])).
Proof.
  intros Hf Hu. unfold select_suggestion, enriched_copy, details_outcome, details_event in *.
  cbv beta iota zeta delta [bind read_state]. rewrite Hf.
  run_tool.
  destruct (getPlaceDetails be (trace w) _) as [e | body]; cbn [details_unusable] in Hu.
  - run_push_step. now rewrite <- app_assoc.
  - destruct Hu as [Hu | [Hu | Hu]]; rewrite Hu;
      [| destruct (truthy _) | destruct (truthy _)];
      cbn [details_nonempty]; cbv beta iota; run_push_step; now rewrite <- app_assoc.
Qed.

Lemma select_suggestion_merged place_id suggestion be w body details :
  find (has_place_id place_id) (last_suggestions (session w)) = Some suggestion ->
  details_outcome be w place_id = inr body ->
  truthy (dr_success (value_of body)) = true ->
  dr_details (value_of body) = Some details ->
  details_nonempty details = true ->
  select_suggestion place_id be w
  = (inr confirmed_reply,
     mkWorld (set_current_selection (Some (enrich suggestion details)) (session w))
       (trace w
        ++ [details_event place_id (session w)]
        ++ [push_event "selection"
              (JDict [ ("suggestion", _format_suggestion (enrich suggestion details)) ])
              (set_current_selection (Some (enrich suggestion details)) (session w))])).
Proof.
  intros Hf Ho Ht Hd Hn.
  unfold select_suggestion, enriched_copy, details_outcome, details_event in *.
  cbv beta iota zeta delta [bind read_state]. rewrite Hf.
  run_tool. rewrite Ho, Ht, Hd, Hn. cbv beta iota. run_push_step.
  now rewrite <- app_assoc.
Qed.

(** X9.  A failed enrichment is not fatal: when the place-details request
    raises, or its reply reports no success, or carries no details or
    empty details, select-by-identifier still answers confirmed, and the
    selection it stores and shows is the first candidate with that
    identifier, unchanged. *)
Theorem unenriched_selection place_id suggestion be w :
  find (has_place_id place_id) (last_suggestions (session w)) = Some suggestion ->
  details_unusable (details_outcome be w place_id) ->
  let w' := snd (select_suggestion place_id be w) in
  fst (select_suggestion place_id be w) = inr confirmed_reply
  /\ current_selection (session w') = Some suggestion
  /\ notifications (trace w')
     = notifications (trace w)
       ++ [push_event "selection"
             (JDict [ ("suggestion", _format_suggestion suggestion) ])
             (session w')].
Proof.
  intros Hf Hu w'. subst w'.
  rewrite (select_suggestion_plain place_id suggestion be w Hf Hu).
  cbn [fst snd session trace]. repeat split.
  rewrite !notifications_app. cbn. reflexivity.
Qed.

Lemma unenriched_selection_witness :
  current_selection (session (snd (select_suggestion "p2" offline (start three_candidates))))
  = Some place2.
Proof.
  apply (unenriched_selection "p2" place2 offline (start three_candidates));
    [reflexivity | exact I].
Defined.

(** X10.  A successful enrichment is merged onto the first candidate with
    the identifier: the selection keeps the candidate's place id, result
    type, confidence and structured formatting; its description is the
    formatted address, or the candidate's description when the details
    have none; its suburb is the details' suburb, or the candidate's; its
    postcode and coordinates are the details', and its types the details'
    or the candidate's.  The state report that follows shows the
    selection with that description, suburb and postcode. *)
Theorem enriched_selection place_id suggestion be w body details :
  find (has_place_id place_id) (last_suggestions (session w)) = Some suggestion ->
  details_outcome be w place_id = inr body ->
  truthy (dr_success (value_of body)) = true ->
  dr_details (value_of body) = Some details ->
  details_nonempty details = true ->
  let w' := snd (select_suggestion place_id be w) in
  exists chosen,
    current_selection (session w') = Some chosen
    /\ sg_placeId chosen = sg_placeId suggestion
    /\ sg_resultType chosen = sg_resultType suggestion
    /\ sg_confidence chosen = sg_confidence suggestion
    /\ sg_structuredFormatting chosen = sg_structuredFormatting suggestion
    /\ sg_description chosen
       = Some (get (dt_formattedAddress details) (get (sg_description suggestion) ""))
    /\ sg_suburb chosen
       = match dt_suburb details with
         | Some suburb => Some suburb
         | None => sg_suburb suggestion
         end
    /\ sg_postcode chosen = dt_postcode details
    /\ sg_lat chosen = dt_lat details
    /\ sg_lng chosen = dt_lng details
    /\ sg_types chosen = Some (get (dt_types details) (get (sg_types suggestion) []))
    /\ (forall be', exists report,
          fst (get_current_state be' w') = inr report
          /\ field "has_selection" report = Some (JBool true)
          /\ field "current_selection" report
             = Some (JDict
                       [ ("description",
                          JStr (get (dt_formattedAddress details)
                                  (get (sg_description suggestion) "")));
                         ("suburb", jstr_or_null (sg_suburb chosen));
                         ("postcode", jstr_or_null (dt_postcode details)) ])).
Proof.
  intros Hf Ho Ht Hd Hn w'. subst w'.
  rewrite (select_suggestion_merged place_id suggestion be w body details Hf Ho Ht Hd Hn).
  cbn [fst snd session]. exists (enrich suggestion details).
  repeat (split; [reflexivity|]). intros be'. eexists. split; [reflexivity|].
  split; reflexivity.
Qed.

Lemma enriched_selection_witness :
  let w' := snd (select_suggestion "p1" (details_backend richmond_details)
                   (start three_candidates)) in
  exists chosen,
    current_selection (session w') = Some chosen
    /\ sg_description chosen = Some "1 Smith Street, Richmond VIC 3121, Australia"
    /\ sg_postcode chosen = Some "3121".
Proof.
  intros w'.
  destruct (enriched_selection "p1" place1 (details_backend richmond_details)
              (start three_candidates)
              (Wrapped (mkDetailsReply (Some true) (Some richmond_details)))
              richmond_details eq_refl eq_refl eq_refl eq_refl eq_refl)
    as (chosen & Hs & _ & _ & _ & _ & Hd & _ & Hp & _).
  exists chosen. split; [exact Hs|]. split; [exact Hd | exact Hp].
Defined.

(** X11.  Identifiers are not checked for uniqueness and the first match
    wins: select-by-identifier on an id that several candidates carry
    selects the earliest of them, whatever follows it in the list. *)
Theorem identifier_on_duplicate_selects_first place_id be w i first :
  nth_error (last_suggestions (session w)) i = Some first ->
  sg_placeId first = Some place_id ->
  (forall j earlier,
      j < i ->
      nth_error (last_suggestions (session w)) j = Some earlier ->
      sg_placeId earlier <> Some place_id) ->
  let w' := snd (select_suggestion place_id be w) in
  fst (select_suggestion place_id be w) = inr confirmed_reply
  /\ exists chosen,
       current_selection (session w') = Some chosen /\ drawn_from first chosen.
Proof.
  intros Hn Hid Hfirst w'. subst w'.
  assert (Hf : find (has_place_id place_id) (last_suggestions (session w)) = Some first).
  { apply (find_first_occurrence _ _ i); [exact Hn | now apply has_place_id_own |].
    intros j y Hj Hy. destruct (has_place_id place_id y) eqn:E; [|reflexivity].
    exfalso. apply (Hfirst j y Hj Hy). now apply has_place_id_true. }
  destruct (select_suggestion_found place_id first be w Hf) as [chosen [Hd ->]].
  split; [reflexivity|]. now exists chosen.
Qed.

(** Two candidates share an id: the first of them is selected. *)
Lemma identifier_on_duplicate_selects_first_witness :
  sg_placeId twin2 = Some "dup"
  /\ twin1 <> twin2
  /\ exists chosen,
       current_selection (session (snd (select_suggestion "dup" offline (start twins))))
       = Some chosen
       /\ drawn_from twin1 chosen.
Proof.
  split; [reflexivity|]. split; [intros E; discriminate E|].
  apply (identifier_on_duplicate_selects_first "dup" offline (start twins) 0 twin1);
    [reflexivity | reflexivity |].
  intros j earlier Hj. lia.
Defined.

(** X12.  Select-by-ordinal never selects anything.  Whatever the
    ordinal, the candidates and the backend, it leaves the session and
    the trace as they were; it answers an error, or it raises
    [TypeError], and it raises exactly when the ordinal is in the table
    and the candidate at its index carries a non-empty place id, which is
    where it should hand over to select-by-identifier. *)
Theorem select_by_ordinal_never_selects ordinal be w :
  snd (select_by_ordinal ordinal be w) = w
  /\ ((exists message,
         fst (select_by_ordinal ordinal be w) = inr (error_reply message))
      \/ fst (select_by_ordinal ordinal be w) = inl not_callable)
  /\ (fst (select_by_ordinal ordinal be w) = inl not_callable
      <-> exists i selected place_id,
            lookup (ordinal_key ordinal) ordinal_map = Some i
            /\ nth_error (last_suggestions (session w)) i = Some selected
            /\ sg_placeId selected = Some place_id
            /\ place_id <> "").
Proof.
  split; [|split].
  - destruct (select_by_ordinal_cases ordinal be w)
      as [[message ->] | (i & selected & p & _ & _ & _ & _ & ->)]; reflexivity.
  - destruct (select_by_ordinal_cases ordinal be w)
      as [[message ->] | (i & selected & p & _ & _ & _ & _ & ->)];
      [left; now exists message | now right].
  - split.
    + intros H.
      destruct (select_by_ordinal_cases ordinal be w)
        as [[message E] | (i & selected & p & Hk & Hn & Hid & Hne & _)].
      * rewrite E in H. discriminate H.
      * now exists i, selected, p.
    + intros (i & selected & p & Hk & Hn & Hid & Hne).
      now rewrite (select_by_ordinal_delegation ordinal be w i selected p Hk Hn Hid Hne).
Qed.

Lemma select_by_ordinal_never_selects_witness :
  snd (select_by_ordinal "3rd" offline (start three_candidates)) = start three_candidates
  /\ fst (select_by_ordinal "3rd" offline (start three_candidates)) = inl not_callable.
Proof.
  destruct (select_by_ordinal_never_selects "3rd" offline (start three_candidates))
    as (Hw & _ & Hraise).
  split; [exact Hw|]. apply Hraise.
  exists 2, place3, "p3".
  split; [reflexivity|]. split; [reflexivity|]. split; [reflexivity|].
  intros E. discriminate E.
Defined.

(** X24.  The refusals of select-by-ordinal.  The ordinal is looked up
    lower-cased and stripped in a table that maps first/1/1st to 0 and so
    on through fifth/5/5th to 4 and holds nothing else.  An ordinal
    outside the table gives an error quoting the input as typed; a known
    ordinal on an empty candidate list gives the no-results error; an
    index at or beyond the number of candidates gives the error stating
    that number; a candidate without a place id, or with an empty one,
    gives the invalid-id error.  Each refusal leaves the session and the
    trace as they were. *)
Theorem select_by_ordinal_refusals :
  (forall key i,
      lookup key ordinal_map = Some i
      <-> i < 5 /\ (nth_error ordinal_words i = Some key
                    \/ key = PyStr.str_of_nat (S i)
                    \/ nth_error ordinal_suffixed i = Some key))
  /\ (forall ordinal be w,
        lookup (ordinal_key ordinal) ordinal_map = None ->
        select_by_ordinal ordinal be w
        = (inr (error_reply ("Didn't understand '" ++ ordinal
                             ++ "'. Please say first, second, third, etc.")), w))
  /\ (forall ordinal be w i,
        lookup (ordinal_key ordinal) ordinal_map = Some i ->
        last_suggestions (session w) = [] ->
        select_by_ordinal ordinal be w
        = (inr (error_reply
                  "No search results to select from. Please search for an address first."),
           w))
  /\ (forall ordinal be w i,
        lookup (ordinal_key ordinal) ordinal_map = Some i ->
        0 < List.length (last_suggestions (session w)) ->
        List.length (last_suggestions (session w)) <= i ->
        select_by_ordinal ordinal be w
        = (inr (error_reply
                  ("Only " ++ PyStr.str_of_nat (List.length (last_suggestions (session w)))
                   ++ " results available. Choose 1 to "
                   ++ PyStr.str_of_nat (List.length (last_suggestions (session w)))
                   ++ ".")),
           w))
  /\ (forall ordinal be w i selected,
        lookup (ordinal_key ordinal) ordinal_map = Some i ->
        nth_error (last_suggestions (session w)) i = Some selected ->
        get (sg_placeId selected) "" = "" ->
        select_by_ordinal ordinal be w
        = (inr (error_reply
                  "That suggestion doesn't have a valid place ID. Try another."), w)).
Proof.
  split; [exact ordinal_map_table|].
  split; [exact select_by_ordinal_unrecognized|].
  split; [exact select_by_ordinal_no_results|].
  split; [exact select_by_ordinal_out_of_range|].
  intros ordinal be w i selected H Hn Hid.
  rewrite (select_by_ordinal_in_range ordinal be w i selected H Hn), Hid.
  reflexivity.
Qed.

(** One call for each refusal. *)
Lemma select_by_ordinal_refusals_witness :
  select_by_ordinal "tenth" offline (start three_candidates)
  = (inr (error_reply "Didn't understand 'tenth'. Please say first, second, third, etc."),
     start three_candidates)
  /\ select_by_ordinal "first" offline fresh
     = (inr (error_reply
               "No search results to select from. Please search for an address first."),
        fresh)
  /\ select_by_ordinal " 2ND " offline (start one_candidate)
     = (inr (error_reply "Only 1 results available. Choose 1 to 1."),
        start one_candidate)
  /\ select_by_ordinal "1" offline (start nameless_candidate)
     = (inr (error_reply "That suggestion doesn't have a valid place ID. Try another."),
        start nameless_candidate).
Proof.
  destruct select_by_ordinal_refusals as (_ & Hu & He & Ho & Hn).
  split; [apply Hu; reflexivity|].
  split; [apply (He "first" offline fresh 0); reflexivity|].
  split; [apply (Ho " 2ND " offline (start one_candidate) 1); [reflexivity | cbn; lia..]|].
  apply (Hn "1" offline (start nameless_candidate) 0 nameless); reflexivity.
Defined.

(** ** Complete runs of the state tools *)

Lemma clear_selection_run be w :
  clear_selection be w
  = (inr (JDict [ ("status", JStr "cleared");
                  ("message", JStr "Ready for a new search.") ]),
     mkWorld (_session_state (session_id (session w)))
       (trace w ++ [push_event "clear" (JDict [])
                      (_session_state (session_id (session w)))])).
Proof. unfold clear_selection, _reset_state. run_tool. run_push_step. reflexivity. Qed.

Lemma show_options_again_refused be w :
  last_suggestions (session w) = []
  \/ last_query (session w) = None
  \/ last_query (session w) = Some "" ->
  show_options_again be w = (inr (error_reply "No previous options available."), w).
Proof.
  intros H. unfold show_options_again. run_tool.
  destruct H as [-> | [-> | ->]]; [reflexivity| |];
    destruct (last_suggestions (session w)); reflexivity.
Qed.

Lemma show_options_again_run be w first more c query :
  last_suggestions (session w) = first :: more ->
  last_query (session w) = Some (String c query) ->
  let shown := selection_cleared (session w) in
  show_options_again be w
  = (inr (JDict
            [ ("status", JStr "options_displayed");
              ("count", jnat (S (List.length more)));
              ("message", JStr "Previous options are on screen again.");
              ("note", JStr "Do NOT list the options. They are visible on screen.") ]),
     mkWorld shown
       (trace w
        ++ [push_event "show_options_again"
              (suggestions_data (String c query) "general" (first :: more)) shown])).
Proof.
  intros Hl Hq shown. subst shown. unfold show_options_again. run_tool.
  rewrite Hl, Hq. run_push_step. reflexivity.
Qed.

Lemma set_selection_acknowledged_run acknowledged be w :
  let is_ack :=
    PyStr.mem (PyStr.strip (PyStr.lower acknowledged)) ["true"; "1"; "yes"] in
  let stored := set_selection_acknowledged_field is_ack (session w) in
  set_selection_acknowledged acknowledged be w
  = (inr (JDict [ ("status", JStr "ok"); ("selection_acknowledged", JBool is_ack) ]),
     mkWorld stored
       (trace w ++ [push_event "selection_acknowledged"
                      (JDict [ ("acknowledged", JBool is_ack) ]) stored])).
Proof. unfold set_selection_acknowledged. run_tool. run_push_step. reflexivity. Qed.

Lemma request_manual_input_run reason be w :
  request_manual_input reason be w
  = (inr (JDict [ ("status", JStr "hybrid_mode_activated");
                  ("message", JStr "Manual input enabled.") ]),
     mkWorld (session w)
       (trace w ++ [push_event "request_manual_input"
                      (JDict [ ("reason", JStr reason) ]) (session w)])).
Proof. unfold request_manual_input. run_tool. run_push_step. reflexivity. Qed.

Lemma confirm_user_selection_run be w :
  confirm_user_selection be w
  = (inr match current_selection (session w) with
         | None => error_reply "No selection to confirm."
         | Some _ => JDict [ ("status", JStr "acknowledged");
                             ("message", JStr "Selection confirmed.") ]
         end, w).
Proof.
  unfold confirm_user_selection. run_tool.
  destruct (current_selection (session w)); reflexivity.
Qed.

(** ** Clearing, re-showing and inspecting *)

(** X13.  Clearing resets the session to its start-up form under the same
    session id and pushes one clear notification with empty data, whatever
    the state was.  Right after it the state report shows no query, no
    candidate and no selection, every ordinal and every identifier is
    refused, there is nothing to show again and nothing to confirm. *)
Theorem clear_starts_over be w :
  let w' := snd (clear_selection be w) in
  session w' = _session_state (session_id (session w))
  /\ trace w' = trace w ++ [push_event "clear" (JDict []) (session w')]
  /\ (forall be',
        fst (get_current_state be' w')
        = inr (JDict [ ("last_query", JNull);
                       ("num_suggestions", jnat 0);
                       ("has_selection", JBool false);
                       ("selection_acknowledged", JBool false);
                       ("current_selection", JNull) ]))
  /\ (forall be' ordinal,
        reply_status (fst (select_by_ordinal ordinal be' w')) = Some "error")
  /\ (forall be' place_id,
        reply_status (fst (select_suggestion place_id be' w')) = Some "not_found")
  /\ (forall be', reply_status (fst (show_options_again be' w')) = Some "error")
  /\ (forall be', reply_status (fst (confirm_user_selection be' w')) = Some "error").
Proof.
  intros w'. subst w'. rewrite clear_selection_run. cbn [fst snd session trace].
  split; [reflexivity|]. split; [reflexivity|]. split; [reflexivity|].
  split; [|split; [|split]]; intros be'.
  - intros ordinal.
    destruct (select_by_ordinal_cases ordinal be'
                (mkWorld (_session_state (session_id (session w)))
                   (trace w ++ [push_event "clear" (JDict [])
                                  (_session_state (session_id (session w)))])))
      as [[message ->] | (i & selected & p & _ & Hn & _)]; [reflexivity|].
    cbn [session last_suggestions _session_state] in Hn. destruct i; discriminate Hn.
  - intros place_id. rewrite select_suggestion_not_found; reflexivity.
  - rewrite show_options_again_refused; [reflexivity | now left].
  - rewrite confirm_user_selection_run. reflexivity.
Qed.

(** X14.  Show-options-again is refused exactly when no candidate is
    stored or the stored query is absent or the empty string, which a
    search for the empty query leaves behind even when it brought
    candidates; a refusal pushes nothing, sends nothing and leaves the
    session as it was, selection included. *)
Theorem show_again_refused be w :
  (reply_status (fst (show_options_again be w)) = Some "error"
   <-> last_suggestions (session w) = []
       \/ last_query (session w) = None
       \/ last_query (session w) = Some "")
  /\ (last_suggestions (session w) = []
      \/ last_query (session w) = None
      \/ last_query (session w) = Some "" ->
      show_options_again be w = (inr (error_reply "No previous options available."), w)).
Proof.
  split; [|apply show_options_again_refused].
  split.
  - intros H.
    destruct (last_suggestions (session w)) as [|first more] eqn:Hl; [now left|].
    destruct (last_query (session w)) as [[|c query]|] eqn:Hq; [tauto| |tauto].
    rewrite (show_options_again_run be w first more c query Hl Hq) in H.
    discriminate H.
  - intros H. now rewrite (show_options_again_refused be w H).
Qed.

(** A search for the empty query stores a candidate under the empty
    query, and the candidate cannot be shown again. *)
Lemma show_again_refused_witness :
  let w := snd (search_address "" (single_backend (found [place1])) fresh) in
  last_suggestions (session w) = [place1]
  /\ last_query (session w) = Some ""
  /\ show_options_again offline w
     = (inr (error_reply "No previous options available."), w).
Proof.
  intros w. split; [reflexivity|]. split; [reflexivity|].
  apply (proj2 (show_again_refused offline w)). right. right. reflexivity.
Defined.

(** X15.  With candidates and a non-empty query on file,
    show-options-again revokes the selection and puts the flag down,
    keeps the query, the candidates and the session id, sends no request,
    and pushes one show_options_again notification that carries the
    stored query, the intent general and the formatted candidates; it
    reports the number of candidates. *)
Theorem show_again_revokes_selection be w first more :
  last_suggestions (session w) = first :: more ->
  (exists c query, last_query (session w) = Some (String c query)) ->
  let outcome := fst (show_options_again be w) in
  let w' := snd (show_options_again be w) in
  reply_status outcome = Some "options_displayed"
  /\ (exists reply,
        outcome = inr reply
        /\ field "count" reply = Some (jnat (List.length (last_suggestions (session w)))))
  /\ current_selection (session w') = None
  /\ selection_acknowledged (session w') = false
  /\ last_query (session w') = last_query (session w)
  /\ last_suggestions (session w') = last_suggestions (session w)
  /\ session_id (session w') = session_id (session w)
  /\ (exists query,
        last_query (session w) = Some query
        /\ trace w'
           = trace w
             ++ [push_event "show_options_again"
                   (suggestions_data query "general" (last_suggestions (session w)))
                   (session w')]).
Proof.
  intros Hl [c [query Hq]] outcome w'. subst outcome w'.
  rewrite (show_options_again_run be w first more c query Hl Hq).
  cbn [fst snd session trace]. rewrite Hl, Hq.
  split; [reflexivity|]. split; [eexists; split; reflexivity|].
  split; [reflexivity|]. split; [reflexivity|].
  split; [exact Hq|]. split; [exact Hl|]. split; [reflexivity|].
  eexists. split; reflexivity.
Qed.

Lemma show_again_revokes_selection_witness :
  let w' := snd (show_options_again offline (start selected_and_acknowledged)) in
  current_selection (session w') = None
  /\ selection_acknowledged (session w') = false
  /\ last_suggestions (session w') = [place1; place2; place3].
Proof.
  intros w'.
  assert (Hq : exists c query,
             last_query (session (start selected_and_acknowledged))
             = Some (String c query)) by (eexists; eexists; reflexivity).
  pose proof (show_again_revokes_selection offline (start selected_and_acknowledged)
                place1 [place2; place3] eq_refl Hq) as H.
  cbv zeta in H. destruct H as (_ & _ & Hs & Ha & _ & Hl & _).
  split; [exact Hs|]. split; [exact Ha | exact Hl].
Defined.

(** X16.  The two inspecting tools change nothing: the state report and
    the confirmation send no request, push nothing and leave the session
    as it was, so a report asked twice is twice the same.  The report
    counts the stored candidates and tells whether a selection is on
    file; the confirmation answers acknowledged exactly when one is. *)
Theorem inspection_is_read_only be w :
  snd (get_current_state be w) = w
  /\ snd (confirm_user_selection be w) = w
  /\ (forall be', get_current_state be' (snd (get_current_state be w))
                  = get_current_state be w)
  /\ (exists report,
        fst (get_current_state be w) = inr report
        /\ field "num_suggestions" report
           = Some (jnat (List.length (last_suggestions (session w))))
        /\ (field "has_selection" report = Some (JBool true)
            <-> current_selection (session w) <> None)
        /\ field "selection_acknowledged" report
           = Some (JBool (selection_acknowledged (session w))))
  /\ (reply_status (fst (confirm_user_selection be w)) = Some "acknowledged"
      <-> current_selection (session w) <> None)
  /\ (reply_status (fst (confirm_user_selection be w)) = Some "error"
      <-> current_selection (session w) = None).
Proof.
  split; [reflexivity|]. split; [now rewrite confirm_user_selection_run|].
  split; [reflexivity|]. split.
  - eexists. split; [reflexivity|]. split; [reflexivity|]. split; [|reflexivity].
    cbn. destruct (current_selection (session w)); split; congruence.
  - rewrite confirm_user_selection_run. cbn [fst].
    destruct (current_selection (session w)); cbn; split; split; congruence.
Qed.

(** ** All tools *)

Ltac select_cases place_id be w :=
  let s := fresh "candidate" in
  let E := fresh "Hfind" in
  let chosen := fresh "chosen" in
  let Hd := fresh "Hdrawn" in
  destruct (find (has_place_id place_id) (last_suggestions (session w))) as [s|] eqn:E;
  [ destruct (select_suggestion_found place_id s be w E) as [chosen [Hd ->]]
  | rewrite (select_suggestion_not_found place_id be w E) ].

Ltac show_cases be w :=
  let Hl := fresh "Hl" in
  let Hq := fresh "Hq" in
  destruct (last_suggestions (session w)) as [|first more] eqn:Hl;
  [ rewrite (show_options_again_refused be w (or_introl Hl))
  | destruct (last_query (session w)) as [[|c query]|] eqn:Hq;
    [ rewrite (show_options_again_refused be w (or_intror (or_intror Hq)))
    | rewrite (show_options_again_run be w first more c query Hl Hq)
    | rewrite (show_options_again_refused be w (or_intror (or_introl Hq))) ] ].

(** Every run of every tool, case by case. *)
Ltac call_cases c be w :=
  destruct c as [query | place_id | ordinal | | | | | acknowledged | reason];
  cbn [call];
  [ search_cases query be w
  | select_cases place_id be w
  | destruct (select_by_ordinal_cases ordinal be w)
      as [[message ->] | (i & selected & place_id & Hk & Hn & Hid & Hne & ->)]
  | unfold get_current_state; run_tool
  | rewrite clear_selection_run
  | show_cases be w
  | rewrite confirm_user_selection_run
  | rewrite set_selection_acknowledged_run
  | rewrite request_manual_input_run ];
  cbn [fst snd session trace].

(** X17.  Each tool writes only its own fields.  No tool changes the
    session id; the last query and the candidate list are written only by
    search and clear; the selection only by search, the two selection
    tools, clear and show-options-again; the acknowledgement flag only by
    search, clear, show-options-again and set-acknowledged. *)
Theorem tools_write_only_their_fields c be w :
  let s := session w in
  let s' := session (snd (call c be w)) in
  session_id s' = session_id s
  /\ match c with
     | Search _ | Clear => True
     | _ => last_query s' = last_query s /\ last_suggestions s' = last_suggestions s
     end
  /\ match c with
     | Search _ | Select _ | SelectOrdinal _ | Clear | ShowAgain => True
     | _ => current_selection s' = current_selection s
     end
  /\ match c with
     | Search _ | Clear | ShowAgain | SetAcknowledged _ => True
     | _ => selection_acknowledged s' = selection_acknowledged s
     end.
Proof.
  intros s s'. subst s s'. call_cases c be w; repeat split; assumption.
Qed.

(** X18.  Every tool but select-by-ordinal always answers: whether the
    backend answers (with replies of the declared types) or raises, and
    whatever the notification channel does, the call returns a reply
    document.  The reply of the state report has no status; every other
    reply has one, among the statuses of its tool.  Select-by-ordinal
    answers an error or raises [TypeError]. *)
Theorem tools_answer_or_raise c be w :
  match c with
  | SelectOrdinal _ =>
      (exists reply, fst (call c be w) = inr reply /\ status reply = Some "error")
      \/ fst (call c be w) = inl not_callable
  | GetState =>
      exists reply, fst (call c be w) = inr reply /\ status reply = None
  | _ =>
      exists reply,
        fst (call c be w) = inr reply
        /\ exists s, status reply = Some s /\ In s (statuses c)
  end.
Proof.
  call_cases c be w;
    try (destruct (get (sr_suggestions (value_of body)) []));
    try (destruct (current_selection (session w)));
    first
      [ right; reflexivity
      | left; eexists; split; reflexivity
      | eexists; split; [reflexivity|];
        first [ reflexivity | eexists; split; [reflexivity | cbn; tauto] ] ].
Qed.

Lemma consistent_unselected s s' :
  consistent s ->
  current_selection s' = None ->
  last_query s' = last_query s ->
  last_suggestions s' = last_suggestions s ->
  consistent s'.
Proof.
  intros [_ Hq] Hs Hq' Hl'. split.
  - intros chosen H. rewrite Hs in H. discriminate H.
  - rewrite Hq', Hl'. exact Hq.
Qed.

Lemma consistent_stored s query suggestions :
  consistent (set_last_suggestions suggestions
                (set_last_query (Some query) (selection_cleared s))).
Proof. split; [intros chosen H; discriminate H | intros _; discriminate]. Qed.

Lemma consistent_selected s candidate chosen place_id :
  consistent s ->
  find (has_place_id place_id) (last_suggestions s) = Some candidate ->
  drawn_from candidate chosen ->
  consistent (set_current_selection (Some chosen) s).
Proof.
  intros [_ Hq] Hf Hd. split; [|exact Hq].
  intros chosen' H. injection H as <-.
  apply find_some in Hf as [Hin Hp].
  exists candidate, place_id. split; [exact Hin|]. split; [exact Hd|].
  rewrite (drawn_from_place_id candidate chosen Hd). now apply has_place_id_true.
Qed.

Lemma consistent_same_selection s s' :
  consistent s ->
  current_selection s' = current_selection s ->
  last_query s' = last_query s ->
  last_suggestions s' = last_suggestions s ->
  consistent s'.
Proof.
  intros [Hs Hq] Hs' Hq' Hl'. split.
  - rewrite Hs', Hl'. exact Hs.
  - rewrite Hq', Hl'. exact Hq.
Qed.

Lemma call_keeps_consistent c be w :
  consistent (session w) -> consistent (session (snd (call c be w))).
Proof.
  intros H. call_cases c be w;
    first
      [ exact H
      | apply consistent_stored
      | apply (consistent_unselected (session w)); [exact H | reflexivity..]
      | eapply consistent_selected; eassumption
      | apply (consistent_same_selection (session w)); [exact H | reflexivity..]
      | split; [intros chosen E; discriminate E | intros E; now elim E] ].
Qed.

(** X19.  The session stays consistent through any sequence of tool
    calls from start-up, whatever the backend answers: a selection on
    file is drawn from a candidate that is still stored and carries a
    place id, and stored candidates come with a stored query. *)
Theorem session_stays_consistent sid calls be :
  consistent (session (call_all calls be (start (_session_state sid)))).
Proof.
  assert (Hstart : consistent (session (start (_session_state sid)))).
  { split; [intros chosen E; discriminate E | intros E; now elim E]. }
  revert Hstart. generalize (start (_session_state sid)).
  induction calls as [|c calls IH]; intros w Hw; [exact Hw|].
  cbn [call_all]. apply IH. now apply call_keeps_consistent.
Qed.

Lemma push_event_well_addressed sid kind data s :
  session_id s = sid ->
  In kind update_types ->
  well_addressed sid (push_event kind data s).
Proof.
  intros <- H. cbn. split; [reflexivity|]. split; [reflexivity|]. now exists kind.
Qed.

Ltac traffic_done :=
  cbn [requests notifications filter is_mutation negb lookup_event details_event
       push_event app List.length];
  repeat split;
  try lia;
  repeat first
    [ apply Forall_nil
    | apply Forall_cons
    | apply push_event_well_addressed; [reflexivity | cbn; tauto]
    | left; reflexivity
    | right; reflexivity ].

(** X20.  The traffic of one tool call is bounded and well addressed:
    the call only appends to the trace; it sends at most two requests, all
    to the two backend actions, and none at all unless it is a search or
    a selection; it pushes at most one notification, to the update
    mutation, under the session id of the session and under one of the
    six kinds of notification. *)
Theorem tool_traffic c be w :
  exists sent,
    trace (snd (call c be w)) = trace w ++ sent
    /\ List.length (requests sent) <= 2
    /\ List.length (notifications sent) <= 1
    /\ match c with
       | Search _ | Select _ | SelectOrdinal _ => True
       | _ => requests sent = []
       end
    /\ Forall (well_addressed (session_id (session w))) sent.
Proof.
  call_cases c be w;
    first
      [ exists []; split; [now rewrite app_nil_r|]; traffic_done
      | eexists; split; [rewrite <- ?app_assoc; reflexivity|]; traffic_done ].
Qed.

(** ** Tools in sequence *)

(** X22.  A validated search pushes one notification; its intent is the
    one the strict reply detected or, when that reply names none,
    address, whatever the loose reply detected; its candidates are the
    formatted list the search stored. *)
Theorem validated_notification query be w validated more :
  _classify_intent query = "address" ->
  truthy (sr_success (reply_of (strict_outcome be w query))) = true ->
  sr_suggestions (reply_of (strict_outcome be w query)) = Some (validated :: more) ->
  let w' := snd (search_address query be w) in
  notifications (trace w')
  = notifications (trace w)
    ++ [push_event "suggestions"
          (suggestions_data query
             (get (sr_detectedIntent (reply_of (strict_outcome be w query))) "address")
             (last_suggestions (session w')))
          (session w')].
Proof.
  intros Hc Ht Hl w'. subst w'.
  rewrite (dual_run_validated query be w Hc validated more Ht Hl).
  cbn [snd session trace]. rewrite !notifications_app. cbn. now rewrite app_nil_r.
Qed.

Lemma validated_notification_witness :
  let be := dual_backend (found [place1; place2]) (found [place1]) in
  let w' := snd (search_address "123 Smith Street" be fresh) in
  notifications (trace w')
  = [push_event "suggestions"
       (suggestions_data "123 Smith Street" "address" [place1; place2]) (session w')].
Proof.
  intros be w'.
  apply (validated_notification "123 Smith Street" be fresh place1 []);
    reflexivity.
Defined.

(** X23.  A selection made by identifier can be confirmed right away, and
    a new search takes that away again: after a confirmed
    select-by-identifier the confirmation answers acknowledged without
    raising the acknowledgement flag, and after any search that follows
    it answers error. *)
Theorem confirm_follows_selection place_id candidate be w :
  In candidate (last_suggestions (session w)) ->
  sg_placeId candidate = Some place_id ->
  let w1 := snd (select_suggestion place_id be w) in
  (forall be',
      reply_status (fst (confirm_user_selection be' w1)) = Some "acknowledged"
      /\ selection_acknowledged (session (snd (confirm_user_selection be' w1)))
         = selection_acknowledged (session w))
  /\ (forall be' query be'',
        reply_status
          (fst (confirm_user_selection be'' (snd (search_address query be' w1))))
        = Some "error").
Proof.
  intros Hin Hid w1. subst w1.
  destruct (find (has_place_id place_id) (last_suggestions (session w))) as [s|] eqn:E.
  - destruct (select_suggestion_found place_id s be w E) as [chosen [Hd ->]].
    cbn [snd]. split.
    + intros be'. rewrite confirm_user_selection_run. cbn. split; reflexivity.
    + intros be' query be''. rewrite confirm_user_selection_run. cbn [fst].
      destruct (search_address_cleared_since query be'
                  (mkWorld (set_current_selection (Some chosen) (session w))
                     (trace w ++ [details_event place_id (session w)]
                      ++ [push_event "selection"
                            (JDict [ ("suggestion", _format_suggestion chosen) ])
                            (set_current_selection (Some chosen) (session w))])))
        as [[Hs _] _].
      rewrite Hs. reflexivity.
  - exfalso. exact (proj1 (find_none_iff _ _) E candidate Hin Hid).
Qed.

Lemma confirm_follows_selection_witness :
  let w1 := snd (select_suggestion "p2" offline (start three_candidates)) in
  reply_status (fst (confirm_user_selection offline w1)) = Some "acknowledged"
  /\ reply_status
       (fst (confirm_user_selection offline
               (snd (search_address "Kew" offline w1))))
     = Some "error".
Proof.
  intros w1.
  assert (Hin : In place2 (last_suggestions (session (start three_candidates))))
    by (right; left; reflexivity).
  pose proof (confirm_follows_selection "p2" place2 offline (start three_candidates)
                Hin eq_refl) as H.
  cbv zeta in H. destruct H as [H1 H2].
  split; [apply H1 | apply H2].
Defined.
